(** * Learneazy PDF service: chapter mapping and layered segmentation

    A shallow embedding of [backend/pdf-service/pdf_processor_service.py]
    ([get_chapter_map] and [process_pdf]) together with the properties of
    the chapter map and of the produced layers.

    Python values are modelled as follows:
    - [int] is [Z] (unbounded);
    - [str] is a list of Unicode code points ([N]);
    - the chapter dictionaries, which always carry the same four keys, are
      records;
    - exceptions, [print] output, the state of the document handle and the
      page loads are explicit, in a small state-and-exception monad. *)

From Stdlib Require Import List ZArith NArith Lia Bool String Ascii.
From Stdlib Require Import DecimalString DecimalZ DecimalPos Sorted.
Import ListNotations.

Local Open Scope string_scope.
Local Open Scope list_scope.
Local Open Scope Z_scope.

(* ================================================================= *)
(** ** Python strings *)

Definition char := N.
Definition pystr := list char.

(** An ASCII literal as a Python string. *)
Definition lit (s : string) : pystr :=
  map N_of_ascii (list_ascii_of_string s).

(** [str.isspace] on one code point: the Unicode whitespace set that
    [str.strip()] removes. *)
Definition isspace (c : char) : bool :=
  (((9 <=? c) && (c <=? 13)) || ((28 <=? c) && (c <=? 32))
   || (c =? 133) || (c =? 160) || (c =? 5760)
   || ((8192 <=? c) && (c <=? 8202))
   || (c =? 8232) || (c =? 8233) || (c =? 8239) || (c =? 8287)
   || (c =? 12288))%N.

Fixpoint lstrip (s : pystr) : pystr :=
  match s with
  | [] => []
  | c :: s' => if isspace c then lstrip s' else s
  end.

Definition rstrip (s : pystr) : pystr := rev (lstrip (rev s)).

(** [s.strip()] *)
Definition strip (s : pystr) : pystr := rstrip (lstrip s).

(** [s.startswith(prefix)] *)
Fixpoint startswith (s prefix : pystr) {struct prefix} : bool :=
  match prefix, s with
  | [], _ => true
  | _ :: _, [] => false
  | p :: prefix', c :: s' => (c =? p)%N && startswith s' prefix'
  end.

(** [str(n)] for an [int]: decimal digits, with a leading minus sign for
    negative numbers. *)
Definition str_int (n : Z) : pystr :=
  lit (NilZero.string_of_int (Z.to_int n)).

(** [sep.join(parts)] *)
Fixpoint join (sep : pystr) (parts : list pystr) : pystr :=
  match parts with
  | [] => []
  | [p] => p
  | p :: rest => p ++ sep ++ join sep rest
  end.

(** [s.replace(old, new)]: every non-overlapping occurrence of [old],
    found from the left, is replaced by [new].  [skip] counts the
    characters of a matched occurrence that are still to be dropped. *)
Fixpoint replace_from (old new : pystr) (skip : nat) (s : pystr) : pystr :=
  match s with
  | [] => []
  | c :: s' =>
      match skip with
      | S k => replace_from old new k s'
      | O =>
          if startswith s old
          then new ++ replace_from old new (Nat.pred (List.length old)) s'
          else c :: replace_from old new O s'
      end
  end.

Definition replace (old new s : pystr) : pystr :=
  match old with
  | [] => new ++ flat_map (fun c => c :: new) s
  | _ :: _ => replace_from old new O s
  end.

(* ================================================================= *)
(** ** Exceptions, the world and the monad *)

Inductive exn : Type :=
| IndexError (msg : pystr)
| Exception (msg : pystr).

(** [str(e)] *)
Definition str_exn (e : exn) : pystr :=
  match e with
  | IndexError msg => msg
  | Exception msg => msg
  end.

Inductive result (A : Type) : Type :=
| Ok (a : A)
| Raise (e : exn).
Arguments Ok {A} a.
Arguments Raise {A} e.

(** A chapter record: the dictionary built at lines 73-78 (and 28-33,
    53-58). *)
Record Chapter : Type := mkChapter {
  chapter_number : pystr;
  title : pystr;
  start_page : Z;
  end_page : Z
}.

(** What [print] wrote.  The dump of the chapter map at line 81 is kept
    as a value: the [repr] of a list of dictionaries is not modelled. *)
Inductive printed : Type :=
| Text (s : pystr)
| GeneratedChapterMap (chapter_map : list Chapter).

(** The document handle of the request. *)
Inductive handle : Type :=
| NotOpened
| Opened
| Closed.

Record World : Type := mkWorld {
  stdout : list printed;
  doc_handle : handle;
  page_loads : list Z
}.

Definition M (A : Type) : Type := World -> result A * World.

Definition ret {A} (a : A) : M A := fun w => (Ok a, w).

Definition bind {A B} (m : M A) (k : A -> M B) : M B :=
  fun w =>
    match m w with
    | (Ok a, w') => k a w'
    | (Raise e, w') => (Raise e, w')
    end.

Definition raise {A} (e : exn) : M A := fun w => (Raise e, w).

(** [try: body except Exception as e: handler(e)] *)
Definition try_except {A} (body : M A) (handler : exn -> M A) : M A :=
  fun w =>
    match body w with
    | (Ok a, w') => (Ok a, w')
    | (Raise e, w') => handler e w'
    end.

Definition lift {A} (r : result A) : M A := fun w => (r, w).

Definition print (p : printed) : M unit :=
  fun w => (Ok tt, mkWorld (stdout w ++ [p]) (doc_handle w) (page_loads w)).

Declare Scope py_scope.
Delimit Scope py_scope with py.
Notation "x <- m ;; k" := (bind m (fun x => k))
  (at level 61, m at next level, right associativity) : py_scope.
Notation "' pat <- m ;; k" := (bind m (fun x => match x with pat => k end))
  (at level 61, pat pattern, m at next level, right associativity) : py_scope.
Notation "m ;; k" := (bind m (fun _ => k))
  (at level 61, right associativity) : py_scope.
Local Open Scope py_scope.

(** [l[i]] for a non-negative index. *)
Definition list_get {A} (l : list A) (i : nat) : M A :=
  match nth_error l i with
  | Some x => ret x
  | None => raise (IndexError (lit "list index out of range"))
  end.

(* ================================================================= *)
(** ** The opened document *)

(** One outline entry of [doc.get_toc()]: [(level, title, page)]. *)
Definition TocItem : Type := Z * pystr * Z.

(** What the code uses of an opened PyMuPDF document: the outline that
    [doc.get_toc()] returned, the page count, and the outcome of
    [doc[i].get_text()] for every index.  A document whose outline cannot
    be read (one that is still encrypted) is outside this record. *)
Record Document : Type := mkDocument {
  get_toc : list TocItem;
  page_count : Z;
  page_get_text : Z -> result pystr
}.

(* ================================================================= *)
(** ** [get_chapter_map] *)

(** The dictionary of lines 28-33 and 53-58. *)
Definition full_document (doc : Document) : Chapter :=
  {| chapter_number := lit "1";
     title := lit "Full Document";
     start_page := 1;
     end_page := page_count doc |}.

(** The test of line 45. *)
Definition is_valid_chapter (entry : TocItem) : bool :=
  let '(level, title, page) := entry in
  let normalized_title := strip title in
  (level =? 1)
  && (startswith normalized_title (lit "Chapter")
      || startswith normalized_title (lit "Appendix")).

(** Lines 42-46: the loop over [enumerate(toc)], from index [i] on. *)
Fixpoint collect_valid_indices (i : nat) (toc : list TocItem)
    (valid_chapter_indices : list nat) : list nat :=
  match toc with
  | [] => valid_chapter_indices
  | entry :: rest =>
      collect_valid_indices (S i) rest
        (if is_valid_chapter entry
         then valid_chapter_indices ++ [i]
         else valid_chapter_indices)
  end.

(** Lines 62-79: the loop over [enumerate(valid_chapter_indices)], from
    position [i] on, where [todo] is what is left of the list. *)
Fixpoint build_chapter_map (doc : Document) (toc : list TocItem)
    (valid_chapter_indices : list nat) (i : nat) (todo : list nat)
    (chapter_map : list Chapter) (chapter_count : Z) : M (list Chapter) :=
  match todo with
  | [] => ret chapter_map
  | toc_index :: todo' =>
      '(level, title, page) <- list_get toc toc_index ;;
      let start_page := page in
      end_page <-
        (if Z.of_nat i <? Z.of_nat (List.length valid_chapter_indices) - 1
         then
           next_toc_index <- list_get valid_chapter_indices (i + 1) ;;
           '(_, _, next_page) <- list_get toc next_toc_index ;;
           ret (next_page - 1)
         else ret (page_count doc)) ;;
      build_chapter_map doc toc valid_chapter_indices (S i) todo'
        (chapter_map
         ++ [ {| chapter_number := str_int chapter_count;
                 title := strip title;
                 start_page := start_page;
                 end_page := end_page |} ])
        (chapter_count + 1)
  end.

(** The warning sign that opens both warnings: U+26A0 U+FE0F. *)
Definition warning_sign : pystr := [9888; 65039]%N.

Definition no_toc_warning : pystr :=
  warning_sign ++ lit " WARNING: No bookmarks (ToC) found in this PDF.".

Definition no_chapter_warning : pystr :=
  warning_sign
  ++ lit " WARNING: No 'Chapter' or 'Appendix' bookmarks found at level 1.".

Definition indexing_notice : pystr :=
  lit "Indexing the entire document as 'Chapter 1'.".

Definition get_chapter_map (doc : Document) : M (list Chapter) :=
  let toc := get_toc doc in
  match toc with
  | [] =>
      print (Text no_toc_warning) ;;
      print (Text indexing_notice) ;;
      ret [full_document doc]
  | _ :: _ =>
      let valid_chapter_indices := collect_valid_indices 0 toc [] in
      match valid_chapter_indices with
      | [] =>
          print (Text no_chapter_warning) ;;
          print (Text indexing_notice) ;;
          ret [full_document doc]
      | _ :: _ =>
          chapter_map <-
            build_chapter_map doc toc valid_chapter_indices 0
              valid_chapter_indices [] 1 ;;
          print (GeneratedChapterMap chapter_map) ;;
          ret chapter_map
      end
  end.

(* ================================================================= *)
(** ** The request, the layers and the response *)

(** An uploaded file: [file.filename] and what [file.read()] returns. *)
Record FileStorage : Type := mkFileStorage {
  filename : pystr;
  read : list Byte.byte
}.

(** [request.files] as parsed from the form, a multi-dictionary: the
    first value of a key is the one that [request.files[key]] returns.  A
    form that cannot be parsed is outside this record. *)
Record Request : Type := mkRequest {
  files : list (pystr * FileStorage)
}.

Definition pystr_eqb (a b : pystr) : bool :=
  if list_eq_dec N.eq_dec a b then true else false.

Definition files_get (request : Request) (key : pystr) : option FileStorage :=
  match find (fun kv => pystr_eqb (fst kv) key) (files request) with
  | Some kv => Some (snd kv)
  | None => None
  end.

(** Lines 101-104. *)
Record FullTocDoc : Type := mkFullTocDoc {
  toc_content : pystr;
  toc_doc_type : pystr
}.

(** Lines 109-115. *)
Record EntryDoc : Type := mkEntryDoc {
  entry_content : pystr;
  entry_doc_type : pystr;
  entry_chapter : pystr
}.

(** Lines 131-138. *)
Record ChunkDoc : Type := mkChunkDoc {
  chunk_content : pystr;
  chunk_doc_type : pystr;
  chunk_chapter : pystr;
  chunk_chapter_title : pystr
}.

(** The payload of lines 145-149. *)
Record Layers : Type := mkLayers {
  layer1_full_toc_doc : FullTocDoc;
  layer1_entry_docs : list EntryDoc;
  layer3_chunks : list ChunkDoc
}.

(** What [jsonify] is given, with the HTTP status next to it. *)
Inductive Json : Type :=
| JsonError (error : pystr)
| JsonLayers (layers : Layers).

Definition Response : Type := Json * Z.

(** The line feed, [chr(10)]. *)
Definition newline : pystr := [10%N].

(** [range(a, b)] *)
Definition range (a b : Z) : list Z :=
  map (fun i => a + Z.of_nat i) (seq 0 (Z.to_nat (b - a))).

(** The line of a chapter in the full table of contents (line 100). *)
Definition toc_line (c : Chapter) : pystr :=
  lit "Chapter " ++ chapter_number c ++ lit ": " ++ title c
  ++ lit " (Page " ++ str_int (start_page c) ++ lit ")".

(** Line 100. *)
Definition toc_text (chapter_map : list Chapter) : pystr :=
  join newline (map toc_line chapter_map).

(** The dictionary appended at lines 109-115. *)
Definition toc_entry (c : Chapter) : EntryDoc :=
  {| entry_content :=
       lit "Chapter " ++ chapter_number c ++ lit ": " ++ title c
       ++ lit " (Starts on Page " ++ str_int (start_page c) ++ lit ")";
     entry_doc_type := lit "toc_entry";
     entry_chapter := chapter_number c |}.

(** Lines 107-115. *)
Definition entry_docs (chapter_map : list Chapter) : list EntryDoc :=
  fold_left (fun layer1_entry_docs c => layer1_entry_docs ++ [toc_entry c])
    chapter_map [].

(** The character U+0000 as a string. *)
Definition NUL : pystr := [0%N].

(** The dictionary appended at lines 131-138. *)
Definition make_chunk (chapter : Chapter) (chunk_content : pystr) : ChunkDoc :=
  {| chunk_content := replace NUL [] chunk_content;
     chunk_doc_type := lit "chunk";
     chunk_chapter := chapter_number chapter;
     chunk_chapter_title := title chapter |}.

(** Lines 130-138. *)
Definition append_chunks (chapter : Chapter) (chunks : list pystr)
    (layer3_chunks : list ChunkDoc) : list ChunkDoc :=
  fold_left
    (fun layer3_chunks chunk_content =>
       layer3_chunks ++ [make_chunk chapter chunk_content])
    chunks layer3_chunks.

(** [doc[page_num].get_text()]: the load is recorded in the world. *)
Definition get_text (doc : Document) (page_num : Z) : M pystr :=
  fun w =>
    (page_get_text doc page_num,
     mkWorld (stdout w) (doc_handle w) (page_loads w ++ [page_num])).

(** Lines 125-126. *)
Fixpoint read_pages (doc : Document) (pages : list Z) (chapter_text : pystr)
    : M pystr :=
  match pages with
  | [] => ret chapter_text
  | page_num :: pages' =>
      text <- get_text doc page_num ;;
      read_pages doc pages' (chapter_text ++ text)
  end.

(** Lines 120-126: the text of one chapter. *)
Definition extract_chapter_text (doc : Document) (chapter : Chapter)
    : M pystr :=
  let chapter_text := [] in
  let start_page_index := Z.max 0 (start_page chapter - 1) in
  let end_page_index := Z.min (page_count doc) (end_page chapter) in
  read_pages doc (range start_page_index end_page_index) chapter_text.

(** The text that lines 120-126 extract for a chapter; it is the same in
    every world ([extract_chapter_text_value]). *)
Definition chapter_text (doc : Document) (chapter : Chapter) : result pystr :=
  fst (extract_chapter_text doc chapter (mkWorld [] NotOpened [])).

(** The world after some more pages were loaded. *)
Definition with_loads (w : World) (loads : list Z) : World :=
  mkWorld (stdout w) (doc_handle w) (page_loads w ++ loads).

(** [doc.close()] *)
Definition close : M unit :=
  fun w => (Ok tt, mkWorld (stdout w) Closed (page_loads w)).

Section ProcessPdf.

(** The external collaborators: [fitz.open(stream=..., filetype="pdf")]
    and [text_splitter.split_text] of the module-level splitter
    (chunk size 512, overlap 50).  Either may raise. *)
Variable fitz_open : list Byte.byte -> result Document.
Variable split_text : pystr -> result (list pystr).

(** Line 95: a document that opens leaves an open handle behind. *)
Definition open_document (pdf_bytes : list Byte.byte) : M Document :=
  fun w =>
    match fitz_open pdf_bytes with
    | Ok doc => (Ok doc, mkWorld (stdout w) Opened (page_loads w))
    | Raise e => (Raise e, w)
    end.

(** Lines 120-138: the body of the loop over the chapters. *)
Definition process_chapter (doc : Document) (chapter : Chapter)
    (layer3_chunks : list ChunkDoc) : M (list ChunkDoc) :=
  chapter_text <- extract_chapter_text doc chapter ;;
  chunks <- lift (split_text chapter_text) ;;
  ret (append_chunks chapter chunks layer3_chunks).

(** Lines 118-138. *)
Fixpoint process_chapters (doc : Document) (chapter_map : list Chapter)
    (layer3_chunks : list ChunkDoc) : M (list ChunkDoc) :=
  match chapter_map with
  | [] => ret layer3_chunks
  | chapter :: rest =>
      layer3_chunks' <- process_chapter doc chapter layer3_chunks ;;
      process_chapters doc rest layer3_chunks'
  end.

(** Lines 94-149: the body of the [try]. *)
Definition process_body (file : FileStorage) : M Response :=
  let pdf_bytes := read file in
  doc <- open_document pdf_bytes ;;
  chapter_map <- get_chapter_map doc ;;
  let layer1_full_toc_doc :=
    {| toc_content := toc_text chapter_map;
       toc_doc_type := lit "toc_full" |} in
  let layer1_entry_docs := entry_docs chapter_map in
  layer3_chunks <- process_chapters doc chapter_map [] ;;
  close ;;
  print (Text (lit "Successfully processed PDF. Found "
               ++ str_int (Z.of_nat (List.length layer3_chunks))
               ++ lit " chunks.")) ;;
  ret (JsonLayers
         {| layer1_full_toc_doc := layer1_full_toc_doc;
            layer1_entry_docs := layer1_entry_docs;
            layer3_chunks := layer3_chunks |}, 200).

(** Lines 85-152. *)
Definition process_pdf (request : Request) : M Response :=
  match files_get request (lit "file") with
  | None => ret (JsonError (lit "No file part"), 400)
  | Some file =>
      if pystr_eqb (filename file) []
      then ret (JsonError (lit "No selected file"), 400)
      else
        try_except (process_body file)
          (fun e =>
             ret (JsonError (lit "Failed to process PDF: " ++ str_exn e), 500))
  end.

End ProcessPdf.

(* ================================================================= *)
(** ** The chunks of the segmenter, without the world *)

(** The chunk records of one chapter: its text is extracted, split, and
    every chunk is sanitised and tagged. *)
Definition chapter_chunks (split_text : pystr -> result (list pystr))
    (doc : Document) (chapter : Chapter) : result (list ChunkDoc) :=
  match chapter_text doc chapter with
  | Ok text =>
      match split_text text with
      | Ok chunks => Ok (map (make_chunk chapter) chunks)
      | Raise e => Raise e
      end
  | Raise e => Raise e
  end.

(** The chunk records of the chapters, in chapter order, up to the first
    chapter that fails. *)
Fixpoint all_chunks (split_text : pystr -> result (list pystr))
    (doc : Document) (chapter_map : list Chapter) (acc : list ChunkDoc)
    : result (list ChunkDoc) :=
  match chapter_map with
  | [] => Ok acc
  | chapter :: rest =>
      match chapter_chunks split_text doc chapter with
      | Ok chunks => all_chunks split_text doc rest (acc ++ chunks)
      | Raise e => Raise e
      end
  end.

(* ================================================================= *)
(** ** The chapter mapper as the specification words it *)

(** The qualifying entries of an outline, in outline order. *)
Definition qualifying (outline : list TocItem) : list TocItem :=
  filter is_valid_chapter outline.

(** An entry qualifies: its level is 1 and its trimmed title starts with
    [Chapter] or with [Appendix]. *)
Definition Qualifies (entry : TocItem) : Prop :=
  let '(level, title, _) := entry in
  level = 1
  /\ exists rest,
       strip title = lit "Chapter" ++ rest
       \/ strip title = lit "Appendix" ++ rest.

(** The chapters of the qualifying entries, numbered from [number] on:
    each ends one page before the next one starts, the last one on the
    last page. *)
Fixpoint chapters_from (number : Z) (entries : list TocItem)
    (total_pages : Z) : list Chapter :=
  match entries with
  | [] => []
  | (_, title, page) :: rest =>
      {| chapter_number := str_int number;
         title := strip title;
         start_page := page;
         end_page :=
           match rest with
           | [] => total_pages
           | (_, _, next_page) :: _ => next_page - 1
           end |}
      :: chapters_from (number + 1) rest total_pages
  end.

(** The page of an outline entry. *)
Definition entry_page (entry : TocItem) : Z :=
  let '(_, _, page) := entry in page.

Definition fallback_chapter (total_pages : Z) : Chapter :=
  {| chapter_number := lit "1";
     title := lit "Full Document";
     start_page := 1;
     end_page := total_pages |}.

Definition compute_chapter_map (outline : list TocItem) (total_pages : Z)
    : list Chapter :=
  match qualifying outline with
  | [] => [fallback_chapter total_pages]
  | entries => chapters_from 1 entries total_pages
  end.

(** What [get_chapter_map] prints. *)
Definition chapter_map_prints (outline : list TocItem) (total_pages : Z)
    : list printed :=
  match outline with
  | [] => [Text no_toc_warning; Text indexing_notice]
  | _ :: _ =>
      match qualifying outline with
      | [] => [Text no_chapter_warning; Text indexing_notice]
      | _ :: _ =>
          [GeneratedChapterMap (compute_chapter_map outline total_pages)]
      end
  end.

(** The world after some more lines were printed. *)
Definition with_output (w : World) (out : list printed) : World :=
  mkWorld (stdout w ++ out) (doc_handle w) (page_loads w).

(** The layers that a successful run returns for a document, given its
    chunk records. *)
Definition layers_of (doc : Document) (chunks : list ChunkDoc) : Layers :=
  let chapter_map := compute_chapter_map (get_toc doc) (page_count doc) in
  {| layer1_full_toc_doc :=
       {| toc_content := toc_text chapter_map;
          toc_doc_type := lit "toc_full" |};
     layer1_entry_docs := map toc_entry chapter_map;
     layer3_chunks := chunks |}.

(* ================================================================= *)
(** ** Concrete documents *)

Definition initial_world : World := mkWorld [] NotOpened [].

(** Pages without text. *)
Definition blank_pages : Z -> result pystr := fun _ => Ok [].

(** Pages that all carry the same text. *)
Definition same_pages (text : pystr) : Z -> result pystr := fun _ => Ok text.

(** A front-matter bookmark followed by two chapters, 15 pages. *)
Definition scenario_outline : list TocItem :=
  [ (1, lit "Copyright", 1);
    (1, lit "Chapter 1: Intro", 3);
    (1, lit "Chapter 2: Depths", 10) ].

Definition scenario_doc : Document :=
  mkDocument scenario_outline 15 blank_pages.

(** The same outline and page count over other page texts. *)
Definition scenario_doc_with_text : Document :=
  mkDocument scenario_outline 15 (same_pages (lit "lorem ipsum")).

(** No bookmarks, 42 pages. *)
Definition no_outline_doc : Document := mkDocument [] 42 blank_pages.

(** Bookmarks, none of which is a level-1 chapter or appendix. *)
Definition front_matter_doc : Document :=
  mkDocument
    [ (1, lit "Copyright", 1);
      (2, lit "Chapter 1", 2);
      (1, lit "chapter one", 3) ]
    42 blank_pages.

(** Two chapters whose bookmarks go backwards in the document. *)
Definition backwards_doc : Document :=
  mkDocument
    [ (1, lit "Chapter 1", 10);
      (1, lit "Chapter 2", 3) ]
    15 blank_pages.

(** A stand-in for the external splitter in the examples: windows of 512
    characters, each starting 462 characters after the previous one. *)
Fixpoint windows (fuel : nat) (text : pystr) : list pystr :=
  match fuel with
  | O => []
  | S fuel' =>
      match text with
      | [] => []
      | _ :: _ =>
          firstn 512 text
          :: (if (List.length text <=? 512)%nat
              then []
              else windows fuel' (skipn 462 text))
      end
  end.

Definition window_splitter (text : pystr) : result (list pystr) :=
  Ok (windows (List.length text) text).

(** An opener that yields the given document for any bytes. *)
Definition open_as (doc : Document) : list Byte.byte -> result Document :=
  fun _ => Ok doc.

(** A request that uploads one file under the key [file]. *)
Definition upload_request : Request :=
  mkRequest [ (lit "file", mkFileStorage (lit "book.pdf") []) ].

(** One page whose text carries a NUL character between two letters. *)
Definition nul_doc : Document :=
  mkDocument [] 1 (same_pages [97; 0; 98]%N).

(** Two chapters of two pages each; the pages of the first are blank. *)
Definition half_blank_doc : Document :=
  mkDocument
    [ (1, lit "Chapter 1", 1);
      (1, lit "Chapter 2", 3) ]
    4 (fun i => if i <? 2 then Ok [] else Ok (lit "text")).

(** One page whose text extraction raises. *)
Definition unreadable_doc : Document :=
  mkDocument [] 1 (fun _ => Raise (Exception (lit "cannot extract text"))).

(* ================================================================= *)
(** ** Further notions and documents *)

(** The 0-based page indices that lines 122-125 walk for a chapter. *)
Definition chapter_pages (doc : Document) (chapter : Chapter) : list Z :=
  range (Z.max 0 (start_page chapter - 1))
    (Z.min (page_count doc) (end_page chapter)).

(** A string without its NUL characters. *)
Definition without_NUL (s : pystr) : pystr :=
  filter (fun c => negb (c =? 0)%N) s.

(** The line that reports the number of chunks (line 142). *)
Definition success_line (chunks : list ChunkDoc) : printed :=
  Text (lit "Successfully processed PDF. Found "
        ++ str_int (Z.of_nat (List.length chunks)) ++ lit " chunks.").

(** A string neither starts nor ends with whitespace. *)
Definition trimmed (s : pystr) : Prop :=
  match s with
  | [] => True
  | c :: _ => isspace c = false
  end
  /\ match rev s with
     | [] => True
     | c :: _ => isspace c = false
     end.

(** Two outline entries that differ in the whitespace around the title
    only. *)
Definition same_up_to_whitespace (entry entry' : TocItem) : Prop :=
  let '(level, title, page) := entry in
  let '(level', title', page') := entry' in
  level = level' /\ strip title = strip title' /\ page = page'.

(** The two chapters of [scenario_outline] without the front matter. *)
Definition chapters_only_doc : Document :=
  mkDocument
    [ (1, lit "Chapter 1: Intro", 3);
      (1, lit "Chapter 2: Depths", 10) ]
    15 blank_pages.

(** [scenario_outline] with whitespace around the titles. *)
Definition padded_doc : Document :=
  mkDocument
    [ (1, lit " Copyright", 1);
      (1, lit "  Chapter 1: Intro ", 3);
      (1, 9%N :: lit "Chapter 2: Depths" ++ [10%N], 10) ]
    15 blank_pages.

(** The chunk records of a chapter, given the chunks that the splitter
    returned for its text (lines 130-138). *)
Definition tagged_chunks (chapter : Chapter) (parts : list pystr)
    : list ChunkDoc :=
  map (fun part =>
         {| chunk_content := without_NUL part;
            chunk_doc_type := lit "chunk";
            chunk_chapter := chapter_number chapter;
            chunk_chapter_title := title chapter |})
    parts.

(** The chapter is extracted and split without an exception. *)
Definition chapter_succeeds (split_text : pystr -> result (list pystr))
    (doc : Document) (chapter : Chapter) (parts : list pystr) : Prop :=
  exists text,
    chapter_text doc chapter = Ok text /\ split_text text = Ok parts.

(** The chapter raises [e], in the extraction or in the splitter. *)
Definition chapter_fails (split_text : pystr -> result (list pystr))
    (doc : Document) (chapter : Chapter) (e : exn) : Prop :=
  chapter_text doc chapter = Raise e
  \/ exists text,
       chapter_text doc chapter = Ok text /\ split_text text = Raise e.

(** Two one-page chapters; the second page fails to extract. *)
Definition broken_second_doc : Document :=
  mkDocument
    [ (1, lit "Chapter 1", 1);
      (1, lit "Chapter 2", 2) ]
    2
    (fun i => if i =? 1 then Raise (Exception (lit "bad page"))
              else Ok (lit "a")).

(* ================================================================= *)
(** ** Strings *)

Lemma startswith_app (s prefix : pystr) :
  startswith s prefix = true <-> exists rest, s = prefix ++ rest.
Proof.
  revert s. induction prefix as [|p prefix IH]; intros s; simpl.
  - split; [intros _; now exists s | reflexivity].
  - destruct s as [|c s].
    + split; [discriminate | intros [rest H]; discriminate].
    + rewrite andb_true_iff, N.eqb_eq, IH. split.
      * intros [-> [rest ->]]. now exists rest.
      * intros [rest H]. injection H as -> ->. split; eauto.
Qed.

Lemma is_valid_chapter_Qualifies (entry : TocItem) :
  is_valid_chapter entry = true <-> Qualifies entry.
Proof.
  destruct entry as [[level t] page]. unfold is_valid_chapter, Qualifies.
  rewrite andb_true_iff, orb_true_iff, Z.eqb_eq, !startswith_app.
  split.
  - intros [Hl [[rest H] | [rest H]]]; (split; [exact Hl | exists rest; tauto]).
  - intros [Hl [rest [H | H]]]; (split; [exact Hl |]);
      [left | right]; now exists rest.
Qed.

Lemma pystr_eqb_spec (a b : pystr) : reflect (a = b) (pystr_eqb a b).
Proof.
  unfold pystr_eqb. destruct (list_eq_dec N.eq_dec a b); now constructor.
Qed.

Lemma lit_injective (s t : string) : lit s = lit t -> s = t.
Proof.
  revert t. induction s as [|a s IH]; destruct t as [|b t]; simpl;
    try discriminate; trivial.
  intros H. injection H as Hab Hst. f_equal; [| now apply IH].
  rewrite <- (ascii_N_embedding a), <- (ascii_N_embedding b). now rewrite Hab.
Qed.

Lemma to_int_nonnil (n : Z) :
  Z.to_int n <> Decimal.Pos Decimal.Nil /\ Z.to_int n <> Decimal.Neg Decimal.Nil.
Proof.
  destruct n as [|p|p]; simpl; split; try discriminate;
    intros H; injection H as H;
    now apply (Unsigned.to_uint_nonnil p).
Qed.

(** [str] is injective on the integers. *)
Lemma str_int_injective (m n : Z) : str_int m = str_int n -> m = n.
Proof.
  unfold str_int. intros H. apply lit_injective in H.
  assert (E : Some (Z.to_int m) = Some (Z.to_int n)).
  { rewrite <- (NilZero.isi (Z.to_int m)), <- (NilZero.isi (Z.to_int n));
      try apply to_int_nonnil.
    now rewrite H. }
  injection E as E.
  rewrite <- (DecimalZ.of_to m), <- (DecimalZ.of_to n). now rewrite E.
Qed.

(* ================================================================= *)
(** ** [get_chapter_map] computes the chapter map of the specification *)

Lemma list_get_Some {A} (l : list A) (i : nat) (x : A) (w : World) :
  nth_error l i = Some x -> list_get l i w = (Ok x, w).
Proof. unfold list_get. now intros ->. Qed.

(** The first loop collects, in order, the positions of the qualifying
    entries; [pre] is the part of the outline already scanned. *)
Lemma collect_valid_indices_lookup (toc : list TocItem) :
  forall (pre : list TocItem) (acc : list nat),
  exists idx,
    collect_valid_indices (List.length pre) toc acc = acc ++ idx
    /\ Forall2 (fun j e => nth_error (pre ++ toc) j = Some e)
         idx (qualifying toc).
Proof.
  induction toc as [|entry rest IH]; intros pre acc; simpl.
  - exists []. split; [now rewrite app_nil_r | constructor].
  - destruct (IH (pre ++ [entry])
                (if is_valid_chapter entry then acc ++ [List.length pre] else acc))
      as [idx [Hrun Hidx]].
    rewrite length_app, Nat.add_comm in Hrun. simpl in Hrun.
    rewrite <- app_assoc in Hidx. simpl in Hidx.
    rewrite Hrun. destruct (is_valid_chapter entry).
    + exists (List.length pre :: idx). split.
      * now rewrite <- app_assoc.
      * constructor; [| exact Hidx].
        now rewrite nth_error_app2, Nat.sub_diag by lia.
    + now exists idx.
Qed.

(** The second loop, started at position [length done] with [todo] left,
    appends the chapters of the entries that [todo] points to. *)
Lemma build_chapter_map_run (doc : Document) (toc : list TocItem)
    (valid : list nat) :
  forall (todo : list nat) (entries : list TocItem) (done : list nat)
         (acc : list Chapter) (count : Z) (w : World),
    valid = done ++ todo ->
    Forall2 (fun j e => nth_error toc j = Some e) todo entries ->
    build_chapter_map doc toc valid (List.length done) todo acc count w
    = (Ok (acc ++ chapters_from count entries (page_count doc)), w).
Proof.
  induction todo as [|toc_index todo IH];
    intros entries done acc count w Hvalid Hlookup.
  - inversion Hlookup; subst. simpl. now rewrite app_nil_r.
  - inversion Hlookup as [|j [[level t] page] todo' entries' Hj Hrest];
      subst j todo' entries.
    cbn [build_chapter_map]. unfold bind at 1.
    rewrite (list_get_Some _ _ _ _ Hj).
    assert (Hlen : List.length valid
                   = (List.length done + S (List.length todo))%nat)
      by (rewrite Hvalid, length_app; reflexivity).
    assert (Hnext : build_chapter_map doc toc valid (S (List.length done)) todo
              (acc ++ [ {| chapter_number := str_int count;
                           title := strip t;
                           start_page := page;
                           end_page :=
                             match entries' with
                             | [] => page_count doc
                             | (_, _, next_page) :: _ => next_page - 1
                             end |} ])
              (count + 1) w
            = (Ok (acc ++ chapters_from count ((level, t, page) :: entries')
                            (page_count doc)), w)).
    { replace (S (List.length done)) with (List.length (done ++ [toc_index]))
        by (rewrite length_app; simpl; lia).
      rewrite (IH entries' (done ++ [toc_index]) _ (count + 1) w).
      - simpl. now rewrite <- app_assoc.
      - rewrite <- app_assoc. exact Hvalid.
      - exact Hrest. }
    destruct Hrest as [|next [[level' t'] page'] todo' entries'' Hn Hrest'].
    + (* the last qualifying entry *)
      unfold bind at 1.
      replace (Z.of_nat (List.length done) <? Z.of_nat (List.length valid) - 1)
        with false by (symmetry; apply Z.ltb_ge; simpl in Hlen; lia).
      unfold ret at 1. exact Hnext.
    + (* another qualifying entry follows *)
      unfold bind at 1.
      replace (Z.of_nat (List.length done) <? Z.of_nat (List.length valid) - 1)
        with true by (symmetry; apply Z.ltb_lt; simpl in Hlen; lia).
      unfold bind at 1.
      rewrite (list_get_Some valid (List.length done + 1) next).
      * unfold bind at 1. rewrite (list_get_Some _ _ _ _ Hn).
        unfold ret at 1. exact Hnext.
      * rewrite Hvalid, nth_error_app2 by lia.
        now replace (List.length done + 1 - List.length done)%nat with 1%nat
          by lia.
Qed.

(** Given the outline, [get_chapter_map] returns the chapter map of the
    specification and prints what [chapter_map_prints] lists. *)
Lemma get_chapter_map_refines (doc : Document) (w : World) :
  get_chapter_map doc w
  = (Ok (compute_chapter_map (get_toc doc) (page_count doc)),
     with_output w (chapter_map_prints (get_toc doc) (page_count doc))).
Proof.
  unfold get_chapter_map, compute_chapter_map, chapter_map_prints.
  destruct (get_toc doc) as [|entry rest] eqn:Htoc.
  - unfold with_output. cbn. now rewrite <- app_assoc.
  - destruct (collect_valid_indices_lookup (entry :: rest) [] [])
      as [idx [Hrun Hidx]].
    change (List.length (@nil TocItem)) with 0%nat in Hrun.
    rewrite Hrun. cbn [app] in Hrun, Hidx |- *.
    destruct (qualifying (entry :: rest)) as [|e entries'] eqn:Hq;
      inversion Hidx as [|j e' idx' entries'' Hj Hrest]; subst.
    + unfold with_output. cbn. now rewrite <- app_assoc.
    + pose proof (build_chapter_map_run doc (entry :: rest) (j :: idx')
                    (j :: idx') (e :: entries') [] [] 1 w eq_refl
                    (Forall2_cons _ _ Hj Hrest)) as Hbuild.
      change (List.length (@nil nat)) with 0%nat in Hbuild.
      unfold bind at 1. rewrite Hbuild.
      unfold compute_chapter_map. rewrite Hq. reflexivity.
Qed.

(** The return value and the output depend on the outline and on the
    page count only. *)
Lemma get_chapter_map_value (doc : Document) (w : World) :
  fst (get_chapter_map doc w)
  = Ok (compute_chapter_map (get_toc doc) (page_count doc)).
Proof. now rewrite get_chapter_map_refines. Qed.

Lemma qualifying_In (outline : list TocItem) (entry : TocItem) :
  In entry (qualifying outline) <-> In entry outline /\ Qualifies entry.
Proof.
  unfold qualifying. now rewrite filter_In, is_valid_chapter_Qualifies.
Qed.

Lemma qualifying_none (outline : list TocItem) :
  (forall entry, In entry outline -> ~ Qualifies entry) ->
  qualifying outline = [].
Proof.
  intros H. destruct (qualifying outline) as [|e q] eqn:Hq; [reflexivity |].
  assert (Hin : In e (qualifying outline)) by (rewrite Hq; now left).
  apply qualifying_In in Hin. destruct Hin as [Hin HQ]. now destruct (H e Hin).
Qed.

Lemma qualifying_none_inv (outline : list TocItem) :
  qualifying outline = [] ->
  forall entry, In entry outline -> ~ Qualifies entry.
Proof.
  intros Hq entry Hin HQ.
  assert (H : In entry (qualifying outline)) by (apply qualifying_In; tauto).
  now rewrite Hq in H.
Qed.

Lemma chapters_from_length (entries : list TocItem) :
  forall number total_pages,
    List.length (chapters_from number entries total_pages)
    = List.length entries.
Proof.
  induction entries as [|[[level t] page] rest IH]; intros; simpl;
    [reflexivity | now rewrite IH].
Qed.

(** The [i]-th chapter built from the entries: its number, title and
    pages. *)
Lemma chapters_from_nth (entries : list TocItem) :
  forall (number total_pages : Z) (i : nat) (c : Chapter),
    nth_error (chapters_from number entries total_pages) i = Some c ->
    exists level t page,
      nth_error entries i = Some (level, t, page)
      /\ chapter_number c = str_int (number + Z.of_nat i)
      /\ title c = strip t
      /\ start_page c = page
      /\ match nth_error (chapters_from number entries total_pages) (S i) with
         | Some next => end_page c = start_page next - 1
         | None => end_page c = total_pages
         end.
Proof.
  induction entries as [|[[level t] page] rest IH];
    intros number total_pages i c Hc.
  - destruct i; discriminate.
  - destruct i as [|i].
    + simpl in Hc. injection Hc as <-. exists level, t, page.
      rewrite Z.add_0_r. repeat split.
      destruct rest as [|[[level' t'] page'] rest']; reflexivity.
    + cbn [chapters_from nth_error] in Hc.
      destruct (IH _ _ _ _ Hc) as (level' & t' & page' & He & Hn & Ht & Hs & Hend).
      exists level', t', page'. repeat split; trivial.
      rewrite Hn. f_equal. lia.
Qed.

(** Entries whose pages increase and stay inside the document give
    chapters with well-formed page ranges. *)
Lemma chapters_from_ranges (entries : list TocItem) :
  forall (number total_pages : Z),
    Forall (fun entry => 1 <= entry_page entry <= total_pages) entries ->
    Sorted Z.lt (map entry_page entries) ->
    Forall (fun c => 1 <= start_page c /\ start_page c <= end_page c)
      (chapters_from number entries total_pages).
Proof.
  induction entries as [|[[level t] page] rest IH];
    intros number total_pages Hin Hsorted; simpl.
  - constructor.
  - inversion Hin as [|? ? Hpage Hrest]; subst.
    simpl in Hsorted. inversion Hsorted as [|? ? Hsorted' Hhd]; subst.
    constructor.
    + simpl in Hpage |- *. split; [lia |].
      destruct rest as [|[[level' t'] page'] rest']; [lia |].
      simpl in Hhd. inversion Hhd; subst. lia.
    + now apply IH.
Qed.

(* ================================================================= *)
(** ** The segmenter: strings and loops *)

Lemma replace_NUL_clean (s : pystr) : ~ In 0%N (replace NUL [] s).
Proof.
  unfold replace, NUL. induction s as [|c s IH]; simpl.
  - tauto.
  - destruct (N.eqb_spec c 0) as [-> | Hc]; simpl.
    + exact IH.
    + intros [H | H]; [now apply Hc | now apply IH].
Qed.

Lemma append_chunks_map (chapter : Chapter) (chunks : list pystr) :
  forall acc,
    append_chunks chapter chunks acc = acc ++ map (make_chunk chapter) chunks.
Proof.
  unfold append_chunks. induction chunks as [|x chunks IH]; intros acc; simpl.
  - now rewrite app_nil_r.
  - rewrite IH, <- app_assoc. reflexivity.
Qed.

Lemma entry_docs_map (chapter_map : list Chapter) :
  entry_docs chapter_map = map toc_entry chapter_map.
Proof.
  unfold entry_docs.
  assert (H : forall acc,
             fold_left (fun docs c => docs ++ [toc_entry c]) chapter_map acc
             = acc ++ map toc_entry chapter_map).
  { induction chapter_map as [|c rest IH]; intros acc; simpl.
    - now rewrite app_nil_r.
    - rewrite IH, <- app_assoc. reflexivity. }
  apply (H []).
Qed.

Lemma range_In (a b i : Z) : In i (range a b) -> a <= i < b.
Proof.
  unfold range. rewrite in_map_iff. intros [k [<- Hk]].
  apply in_seq in Hk. lia.
Qed.

Lemma range_empty (a b : Z) : b <= a -> range a b = [].
Proof.
  intros H. unfold range.
  replace (Z.to_nat (b - a)) with 0%nat by lia. reflexivity.
Qed.

Lemma with_loads_nil (w : World) : with_loads w [] = w.
Proof. destruct w. unfold with_loads. simpl. now rewrite app_nil_r. Qed.

Lemma with_loads_app (w : World) (l1 l2 : list Z) :
  with_loads (with_loads w l1) l2 = with_loads w (l1 ++ l2).
Proof. unfold with_loads. simpl. now rewrite app_assoc. Qed.

(** The inner loop loads the pages in order, stops at the first one whose
    extraction raises, and changes nothing else in the world. *)
Lemma read_pages_run (doc : Document) (pages : list Z) :
  forall (acc : pystr) (w : World),
  exists loads rest,
    pages = loads ++ rest
    /\ snd (read_pages doc pages acc w) = with_loads w loads
    /\ (forall text, fst (read_pages doc pages acc w) = Ok text -> rest = []).
Proof.
  induction pages as [|p pages IH]; intros acc w.
  - exists [], []. simpl. now rewrite with_loads_nil.
  - cbn [read_pages]. unfold bind, get_text.
    fold (with_loads w [p]).
    destruct (page_get_text doc p) as [text | e].
    + destruct (IH (acc ++ text) (with_loads w [p]))
        as (loads & rest & Hpages & Hw & Hrest).
      exists (p :: loads), rest. rewrite Hw, with_loads_app.
      repeat split; [now rewrite Hpages | exact Hrest].
    + exists [p], pages. repeat split. discriminate.
Qed.

(** The extracted text does not depend on the world. *)
Lemma read_pages_value (doc : Document) (pages : list Z) :
  forall (acc : pystr) (w w0 : World),
    fst (read_pages doc pages acc w) = fst (read_pages doc pages acc w0).
Proof.
  induction pages as [|p pages IH]; intros acc w w0.
  - reflexivity.
  - cbn [read_pages]. unfold bind, get_text.
    destruct (page_get_text doc p) as [text | e]; [apply IH | reflexivity].
Qed.

Lemma extract_chapter_text_value (doc : Document) (chapter : Chapter)
    (w : World) :
  fst (extract_chapter_text doc chapter w) = chapter_text doc chapter.
Proof. apply read_pages_value. Qed.

Lemma extract_chapter_text_frame (doc : Document) (chapter : Chapter)
    (w : World) :
  stdout (snd (extract_chapter_text doc chapter w)) = stdout w
  /\ doc_handle (snd (extract_chapter_text doc chapter w)) = doc_handle w.
Proof.
  unfold extract_chapter_text.
  destruct (read_pages_run doc
              (range (Z.max 0 (start_page chapter - 1))
                 (Z.min (page_count doc) (end_page chapter))) [] w)
    as (loads & rest & _ & Hw & _).
  rewrite Hw. now split.
Qed.

(* ================================================================= *)
(** ** The segmenter: chapters and the request *)

Section Segmenter.

Variable fitz_open : list Byte.byte -> result Document.
Variable split_text : pystr -> result (list pystr).

(** One turn of the chapter loop: the value is that of [chapter_chunks],
    the world is the one that the extraction left. *)
Lemma process_chapter_run (doc : Document) (chapter : Chapter)
    (acc : list ChunkDoc) (w : World) :
  process_chapter split_text doc chapter acc w
  = (match chapter_chunks split_text doc chapter with
     | Ok chunks => Ok (acc ++ chunks)
     | Raise e => Raise e
     end,
     snd (extract_chapter_text doc chapter w)).
Proof.
  unfold process_chapter, chapter_chunks, bind, lift, ret.
  rewrite <- (extract_chapter_text_value doc chapter w).
  destruct (extract_chapter_text doc chapter w) as [[text | e] w1]; simpl.
  - destruct (split_text text) as [chunks | e].
    + now rewrite append_chunks_map.
    + reflexivity.
  - reflexivity.
Qed.

Lemma process_chapters_value (doc : Document) (chapter_map : list Chapter) :
  forall (acc : list ChunkDoc) (w : World),
    fst (process_chapters split_text doc chapter_map acc w)
    = all_chunks split_text doc chapter_map acc.
Proof.
  induction chapter_map as [|chapter rest IH]; intros acc w.
  - reflexivity.
  - cbn [process_chapters all_chunks]. unfold bind.
    rewrite process_chapter_run.
    destruct (chapter_chunks split_text doc chapter); [apply IH | reflexivity].
Qed.

(** The chapter loop prints nothing and leaves the handle as it is. *)
Lemma process_chapters_frame (doc : Document) (chapter_map : list Chapter) :
  forall (acc : list ChunkDoc) (w : World),
    stdout (snd (process_chapters split_text doc chapter_map acc w)) = stdout w
    /\ doc_handle (snd (process_chapters split_text doc chapter_map acc w))
       = doc_handle w.
Proof.
  induction chapter_map as [|chapter rest IH]; intros acc w.
  - now split.
  - cbn [process_chapters]. unfold bind. rewrite process_chapter_run.
    destruct (extract_chapter_text_frame doc chapter w) as [Hout Hhandle].
    destruct (chapter_chunks split_text doc chapter) as [chunks | e].
    + destruct (IH (acc ++ chunks) (snd (extract_chapter_text doc chapter w)))
        as [Hout' Hhandle'].
      split; congruence.
    + now split.
Qed.

(** Where the chunks of a successful run come from. *)
Lemma all_chunks_In (doc : Document) (chapter_map : list Chapter) :
  forall (acc out : list ChunkDoc),
    all_chunks split_text doc chapter_map acc = Ok out ->
    forall chunk, In chunk out ->
      In chunk acc
      \/ exists chapter chunks,
           In chapter chapter_map
           /\ chapter_chunks split_text doc chapter = Ok chunks
           /\ In chunk chunks.
Proof.
  induction chapter_map as [|chapter rest IH]; intros acc out Hrun chunk Hin.
  - injection Hrun as <-. now left.
  - cbn [all_chunks] in Hrun.
    destruct (chapter_chunks split_text doc chapter) as [chunks | e] eqn:Hc;
      [| discriminate].
    destruct (IH _ _ Hrun chunk Hin) as [Hacc | (c & l & Hc' & Hl & Hchunk)].
    + apply in_app_or in Hacc. destruct Hacc as [Hacc | Hnew]; [now left |].
      right. exists chapter, chunks. repeat split; trivial. now left.
    + right. exists c, l. repeat split; trivial. now right.
Qed.


Lemma process_body_open_fails (file : FileStorage) (w : World) (e : exn) :
  fitz_open (read file) = Raise e ->
  process_body fitz_open split_text file w = (Raise e, w).
Proof.
  intros Hopen. unfold process_body, open_document. unfold bind at 1.
  now rewrite Hopen.
Qed.

(** Once the document is open there are two ways through the body of the
    [try]: all chapters succeed, and the handle is closed; or a chapter
    fails, and the handle stays open. *)
Lemma process_body_run (file : FileStorage) (doc : Document) (w : World) :
  fitz_open (read file) = Ok doc ->
  exists w',
    process_body fitz_open split_text file w
    = (match all_chunks split_text doc
               (compute_chapter_map (get_toc doc) (page_count doc)) [] with
       | Ok chunks => Ok (JsonLayers (layers_of doc chunks), 200)
       | Raise e => Raise e
       end, w')
    /\ doc_handle w'
       = match all_chunks split_text doc
                 (compute_chapter_map (get_toc doc) (page_count doc)) [] with
         | Ok _ => Closed
         | Raise _ => Opened
         end.
Proof.
  intros Hopen. unfold process_body, open_document. unfold bind at 1.
  rewrite Hopen.
  unfold bind at 1. rewrite get_chapter_map_refines.
  set (chapter_map := compute_chapter_map (get_toc doc) (page_count doc)).
  set (w1 := with_output _ _).
  unfold bind at 1.
  pose proof (process_chapters_value doc chapter_map [] w1) as Hvalue.
  destruct (process_chapters_frame doc chapter_map [] w1) as [_ Hhandle].
  destruct (process_chapters split_text doc chapter_map [] w1) as [r w2].
  simpl in Hvalue, Hhandle. rewrite <- Hvalue.
  destruct r as [chunks | e].
  - eexists. split.
    + unfold bind, close, print, ret. cbn.
      unfold layers_of. fold chapter_map. rewrite entry_docs_map. reflexivity.
    + reflexivity.
  - exists w2. split; [reflexivity | exact Hhandle].
Qed.

(** A request that carries a named file runs the body of the [try];
    whatever the body raises becomes the error of a 500 response. *)
Lemma process_pdf_run (request : Request) (file : FileStorage) (w : World) :
  files_get request (lit "file") = Some file ->
  filename file <> [] ->
  process_pdf fitz_open split_text request w
  = match process_body fitz_open split_text file w with
    | (Ok response, w') => (Ok response, w')
    | (Raise e, w') =>
        (Ok (JsonError (lit "Failed to process PDF: " ++ str_exn e), 500), w')
    end.
Proof.
  intros Hfile Hname. unfold process_pdf. rewrite Hfile.
  destruct (pystr_eqb_spec (filename file) []); [contradiction | reflexivity].
Qed.

(** What a response with layers tells about the run. *)
Lemma process_pdf_layers (request : Request) (w w' : World)
    (layers : Layers) (status : Z) :
  process_pdf fitz_open split_text request w
  = (Ok (JsonLayers layers, status), w') ->
  exists file doc chunks,
    files_get request (lit "file") = Some file
    /\ filename file <> []
    /\ fitz_open (read file) = Ok doc
    /\ all_chunks split_text doc
         (compute_chapter_map (get_toc doc) (page_count doc)) [] = Ok chunks
    /\ layers = layers_of doc chunks
    /\ status = 200
    /\ doc_handle w' = Closed.
Proof.
  intros Hrun.
  destruct (files_get request (lit "file")) as [file |] eqn:Hfile;
    [| unfold process_pdf in Hrun; rewrite Hfile in Hrun; discriminate].
  assert (Hname : filename file <> []).
  { intros Hname. unfold process_pdf in Hrun. rewrite Hfile in Hrun.
    destruct (pystr_eqb_spec (filename file) []);
      [discriminate | contradiction]. }
  rewrite (process_pdf_run request file w Hfile Hname) in Hrun.
  destruct (fitz_open (read file)) as [doc | e] eqn:Hopen.
  - destruct (process_body_run file doc w Hopen) as (w1 & Hbody & Hhandle).
    rewrite Hbody in Hrun.
    destruct (all_chunks split_text doc
                (compute_chapter_map (get_toc doc) (page_count doc)) [])
      as [chunks | e] eqn:Hchunks; [| discriminate].
    injection Hrun as <- <- <-.
    exists file, doc, chunks. repeat split; trivial.
  - rewrite (process_body_open_fails file w e Hopen) in Hrun. discriminate.
Qed.

End Segmenter.

(* ================================================================= *)
(** ** Chapter numbers and lines *)




(** A joined part is a substring of the result of [join]. *)
Lemma join_In (sep : pystr) (parts : list pystr) (p : pystr) :
  In p parts -> exists before after, join sep parts = before ++ p ++ after.
Proof.
  induction parts as [|q parts IH]; [contradiction |].
  intros [-> | Hin].
  - destruct parts as [|q' parts'].
    + exists [], []. simpl. now rewrite app_nil_r.
    + exists [], (sep ++ join sep (q' :: parts')). reflexivity.
  - destruct parts as [|q' parts']; [contradiction |].
    destruct (IH Hin) as (before & after & Hjoin).
    exists (q ++ sep ++ before), after.
    change (join sep (q :: q' :: parts'))
      with (q ++ sep ++ join sep (q' :: parts')).
    rewrite Hjoin, <- !app_assoc. reflexivity.
Qed.

(* ================================================================= *)
(** ** Properties of the chapter map *)

(** C1. When the outline has k >= 1 qualifying entries (level 1, trimmed
    title starting with "Chapter" or "Appendix"), [get_chapter_map]
    returns exactly k chapters.  The i-th chapter (counted from 0) has
    number [str(i + 1)], the trimmed title and the page of the i-th
    qualifying entry; it ends one page before the next chapter starts, and
    the last chapter ends on the last page of the document. *)
Theorem get_chapter_map_qualifying (doc : Document) (w : World) :
  qualifying (get_toc doc) <> [] ->
  exists chapter_map,
    fst (get_chapter_map doc w) = Ok chapter_map
    /\ List.length chapter_map = List.length (qualifying (get_toc doc))
    /\ (forall entry,
          In entry (qualifying (get_toc doc))
          <-> In entry (get_toc doc) /\ Qualifies entry)
    /\ forall i c,
         nth_error chapter_map i = Some c ->
         exists level t page,
           nth_error (qualifying (get_toc doc)) i = Some (level, t, page)
           /\ chapter_number c = str_int (Z.of_nat i + 1)
           /\ title c = strip t
           /\ start_page c = page
           /\ match nth_error chapter_map (S i) with
              | Some next => end_page c = start_page next - 1
              | None => end_page c = page_count doc
              end.
Proof.
  intros Hq. exists (chapters_from 1 (qualifying (get_toc doc)) (page_count doc)).
  split; [| split; [| split]].
  - rewrite get_chapter_map_value. unfold compute_chapter_map.
    destruct (qualifying (get_toc doc)); [contradiction | reflexivity].
  - apply chapters_from_length.
  - intros entry. apply qualifying_In.
  - intros i c Hc.
    destruct (chapters_from_nth _ _ _ _ _ Hc)
      as (level & t & page & He & Hn & Ht & Hs & Hend).
    exists level, t, page. rewrite Z.add_comm. now repeat split.
Qed.

Lemma get_chapter_map_qualifying_witness :
  qualifying (get_toc scenario_doc) <> []
  /\ exists chapter_map,
       fst (get_chapter_map scenario_doc initial_world) = Ok chapter_map
       /\ List.length chapter_map = 2%nat.
Proof.
  assert (H : qualifying (get_toc scenario_doc) <> []) by (vm_compute; discriminate).
  split; [exact H |].
  destruct (get_chapter_map_qualifying scenario_doc initial_world H)
    as (chapter_map & Hrun & Hlen & _).
  exists chapter_map. split; [exact Hrun | exact Hlen].
Defined.

(** C2. For a document without bookmarks, [get_chapter_map] returns one
    chapter: number "1", title "Full Document", pages 1 to the page
    count. *)
Theorem get_chapter_map_no_toc (doc : Document) (w : World) :
  get_toc doc = [] ->
  fst (get_chapter_map doc w)
  = Ok [ {| chapter_number := lit "1";
            title := lit "Full Document";
            start_page := 1;
            end_page := page_count doc |} ].
Proof.
  intros Htoc. rewrite get_chapter_map_value, Htoc. reflexivity.
Qed.

Lemma get_chapter_map_no_toc_witness :
  fst (get_chapter_map no_outline_doc initial_world)
  = Ok [mkChapter (lit "1") (lit "Full Document") 1 42].
Proof.
  exact (get_chapter_map_no_toc no_outline_doc initial_world eq_refl).
Defined.

(** C3. For a non-empty outline without a qualifying entry,
    [get_chapter_map] returns what it returns for a document without
    bookmarks and with the same page count. *)
Theorem get_chapter_map_no_valid_chapter (doc empty : Document) (w w' : World) :
  get_toc doc <> [] ->
  (forall entry, In entry (get_toc doc) -> ~ Qualifies entry) ->
  get_toc empty = [] ->
  page_count empty = page_count doc ->
  fst (get_chapter_map doc w) = fst (get_chapter_map empty w').
Proof.
  intros _ Hnone Hempty Hpages.
  rewrite !get_chapter_map_value, Hempty, Hpages.
  unfold compute_chapter_map. now rewrite (qualifying_none _ Hnone).
Qed.

Lemma get_chapter_map_no_valid_chapter_witness :
  fst (get_chapter_map front_matter_doc initial_world)
  = fst (get_chapter_map no_outline_doc initial_world).
Proof.
  apply get_chapter_map_no_valid_chapter.
  - discriminate.
  - apply qualifying_none_inv. reflexivity.
  - reflexivity.
  - reflexivity.
Defined.

(** C4, as the code has it.  When the document has at least one page and
    the pages of the qualifying entries lie between 1 and the page count
    and increase strictly in outline order, every chapter that
    [get_chapter_map] returns has [start_page >= 1] and
    [end_page >= start_page]. *)
Theorem get_chapter_map_page_ranges (doc : Document) (w : World)
    (chapter_map : list Chapter) :
  1 <= page_count doc ->
  Forall (fun entry => 1 <= entry_page entry <= page_count doc)
    (qualifying (get_toc doc)) ->
  Sorted Z.lt (map entry_page (qualifying (get_toc doc))) ->
  fst (get_chapter_map doc w) = Ok chapter_map ->
  forall c, In c chapter_map ->
    1 <= start_page c /\ start_page c <= end_page c.
Proof.
  intros Hpages Hin Hsorted Hrun.
  rewrite get_chapter_map_value in Hrun. injection Hrun as <-.
  apply Forall_forall. unfold compute_chapter_map.
  destruct (qualifying (get_toc doc)) as [|e q] eqn:Hq.
  - constructor; [simpl; lia | constructor].
  - now apply chapters_from_ranges.
Qed.

Lemma get_chapter_map_page_ranges_witness :
  Forall (fun c => 1 <= start_page c /\ start_page c <= end_page c)
    [ mkChapter (lit "1") (lit "Chapter 1: Intro") 3 9;
      mkChapter (lit "2") (lit "Chapter 2: Depths") 10 15 ].
Proof.
  apply Forall_forall.
  apply (get_chapter_map_page_ranges scenario_doc initial_world).
  - simpl. lia.
  - repeat constructor; simpl; lia.
  - repeat constructor.
  - reflexivity.
Defined.

(** C4, as stated, fails: for two chapters whose bookmarks go backwards
    (pages 10 and 3 of 15), the first chapter starts on page 10 and ends
    on page 2. *)
Lemma get_chapter_map_backwards_range :
  fst (get_chapter_map backwards_doc initial_world)
  = Ok [ mkChapter (lit "1") (lit "Chapter 1") 10 2;
         mkChapter (lit "2") (lit "Chapter 2") 3 15 ]
  /\ ~ (forall chapter_map c,
          fst (get_chapter_map backwards_doc initial_world) = Ok chapter_map ->
          In c chapter_map ->
          1 <= start_page c /\ start_page c <= end_page c).
Proof.
  split; [reflexivity |].
  intros H.
  destruct (H _ (mkChapter (lit "1") (lit "Chapter 1") 10 2) eq_refl
              (or_introl eq_refl)) as [_ Hle].
  simpl in Hle. lia.
Qed.

(** C5. The outline [(1, "Copyright", 1), (1, "Chapter 1: Intro", 3),
    (1, "Chapter 2: Depths", 10)] of a 15-page document gives the chapters
    ["1", "Chapter 1: Intro", 3, 9] and ["2", "Chapter 2: Depths", 10, 15],
    and the full table of contents built from them is
    "Chapter 1: Chapter 1: Intro (Page 3)", a line feed, and
    "Chapter 2: Chapter 2: Depths (Page 10)"; [process_pdf] returns this
    string as the content of [layer1_full_toc_doc] when the pages of the
    document are blank. *)
Theorem get_chapter_map_scenario (page_text : Z -> result pystr) (w : World) :
  let doc :=
    mkDocument
      [ (1, lit "Copyright", 1);
        (1, lit "Chapter 1: Intro", 3);
        (1, lit "Chapter 2: Depths", 10) ]
      15 page_text in
  let chapters :=
    [ mkChapter (lit "1") (lit "Chapter 1: Intro") 3 9;
      mkChapter (lit "2") (lit "Chapter 2: Depths") 10 15 ] in
  let full_toc :=
    lit "Chapter 1: Chapter 1: Intro (Page 3)" ++ [10%N]
    ++ lit "Chapter 2: Chapter 2: Depths (Page 10)" in
  fst (get_chapter_map doc w) = Ok chapters
  /\ toc_text chapters = full_toc
  /\ exists layers w',
       process_pdf (open_as scenario_doc) window_splitter upload_request
         initial_world
       = (Ok (JsonLayers layers, 200), w')
       /\ toc_content (layer1_full_toc_doc layers) = full_toc.
Proof.
  intros doc chapters full_toc. split; [| split].
  - rewrite get_chapter_map_value. reflexivity.
  - reflexivity.
  - exists (layers_of scenario_doc []).
    exists (mkWorld
              [ GeneratedChapterMap chapters;
                Text (lit "Successfully processed PDF. Found 0 chunks.") ]
              Closed (range 2 15)).
    split; vm_compute; reflexivity.
Qed.

(** C10. Two documents with the same outline and the same page count get
    the same chapter map, whatever their page texts are and whatever was
    printed or loaded before; run from the same world, [get_chapter_map]
    also prints the same lines for both. *)
Theorem get_chapter_map_outline_only (doc1 doc2 : Document) (w1 w2 : World) :
  get_toc doc1 = get_toc doc2 ->
  page_count doc1 = page_count doc2 ->
  fst (get_chapter_map doc1 w1) = fst (get_chapter_map doc2 w2)
  /\ get_chapter_map doc1 w1 = get_chapter_map doc2 w1.
Proof.
  intros Htoc Hpages.
  rewrite !get_chapter_map_refines, Htoc, Hpages. now split.
Qed.

Lemma get_chapter_map_outline_only_witness :
  page_get_text scenario_doc 0 <> page_get_text scenario_doc_with_text 0
  /\ fst (get_chapter_map scenario_doc initial_world)
     = fst (get_chapter_map scenario_doc_with_text
              (mkWorld [] Opened [0; 1]))
  /\ get_chapter_map scenario_doc initial_world
     = get_chapter_map scenario_doc_with_text initial_world.
Proof.
  split; [discriminate |].
  apply get_chapter_map_outline_only; reflexivity.
Defined.

(* ================================================================= *)
(** ** Properties of the segmenter *)

(** C6. For every chapter record, also one with [end_page < start_page]
    or with pages beyond the document, the segmenter loads only pages
    whose 0-based index lies in the half-open range from
    [max(0, start_page - 1)] to [min(page_count, end_page)]: they are an
    initial part of that range, in order, and the whole range unless an
    extraction raised.  No index outside [0, page_count - 1] is loaded.
    When the clamped range is empty, nothing is loaded, the text of the
    chapter is the empty string, and, the splitter returning no chunk for
    the empty string, the turn of the loop ends without failure and
    without a new chunk. *)
Theorem process_chapter_clamped (split_text : pystr -> result (list pystr))
    (doc : Document) (chapter : Chapter) (layer3_chunks : list ChunkDoc)
    (w : World) :
  let start_page_index := Z.max 0 (start_page chapter - 1) in
  let end_page_index := Z.min (page_count doc) (end_page chapter) in
  exists loads rest,
    snd (process_chapter split_text doc chapter layer3_chunks w)
    = with_loads w loads
    /\ snd (extract_chapter_text doc chapter w) = with_loads w loads
    /\ range start_page_index end_page_index = loads ++ rest
    /\ (forall text,
          fst (extract_chapter_text doc chapter w) = Ok text -> rest = [])
    /\ Forall (fun i => start_page_index <= i < end_page_index
                        /\ 0 <= i <= page_count doc - 1) loads
    /\ (end_page_index <= start_page_index ->
        extract_chapter_text doc chapter w = (Ok [], w)
        /\ (split_text [] = Ok [] ->
            process_chapter split_text doc chapter layer3_chunks w
            = (Ok layer3_chunks, w))).
Proof.
  intros start_page_index end_page_index.
  destruct (read_pages_run doc (range start_page_index end_page_index) [] w)
    as (loads & rest & Hrange & Hw & Hrest).
  fold (extract_chapter_text doc chapter) in Hw, Hrest.
  exists loads, rest. split; [| split; [| split; [| split; [| split]]]].
  - rewrite process_chapter_run. exact Hw.
  - exact Hw.
  - exact Hrange.
  - exact Hrest.
  - apply Forall_forall. intros i Hi.
    assert (Hin : In i (range start_page_index end_page_index))
      by (rewrite Hrange; apply in_or_app; now left).
    apply range_In in Hin. unfold start_page_index, end_page_index in *. lia.
  - intros Hempty.
    assert (Hextract : extract_chapter_text doc chapter w = (Ok [], w)).
    { unfold extract_chapter_text.
      fold start_page_index. fold end_page_index.
      now rewrite (range_empty _ _ Hempty). }
    split; [exact Hextract |].
    intros Hsplit. unfold process_chapter, bind, lift, ret.
    rewrite Hextract, Hsplit. reflexivity.
Qed.

Lemma process_chapter_clamped_witness :
  Z.min 15 2 <= Z.max 0 (10 - 1)
  /\ window_splitter [] = Ok []
  /\ process_chapter window_splitter backwards_doc
       (mkChapter (lit "1") (lit "Chapter 1") 10 2) [] initial_world
     = (Ok [], initial_world).
Proof.
  assert (Hempty : Z.min 15 2 <= Z.max 0 (10 - 1)) by (vm_compute; discriminate).
  assert (Hsplit : window_splitter [] = Ok []) by reflexivity.
  split; [exact Hempty |]. split; [exact Hsplit |].
  destruct (process_chapter_clamped window_splitter backwards_doc
              (mkChapter (lit "1") (lit "Chapter 1") 10 2) [] initial_world)
    as (loads & rest & _ & _ & _ & _ & _ & Hclamped).
  exact (proj2 (Hclamped Hempty) Hsplit).
Defined.

(** C7. Whatever the document and its page texts are, no chunk record of
    the returned [layer3_chunks] has a NUL character in its content. *)
Theorem process_pdf_chunks_without_NUL
    (fitz_open : list Byte.byte -> result Document)
    (split_text : pystr -> result (list pystr))
    (request : Request) (w w' : World) (layers : Layers) (status : Z) :
  process_pdf fitz_open split_text request w
  = (Ok (JsonLayers layers, status), w') ->
  forall chunk,
    In chunk (layer3_chunks layers) -> ~ In 0%N (chunk_content chunk).
Proof.
  intros Hrun chunk Hin.
  destruct (process_pdf_layers _ _ _ _ _ _ _ Hrun)
    as (file & doc & chunks & _ & _ & _ & Hchunks & -> & _).
  simpl in Hin.
  destruct (all_chunks_In _ _ _ _ _ Hchunks chunk Hin)
    as [[] | (chapter & l & _ & Hl & Hchunk)].
  unfold chapter_chunks in Hl.
  destruct (chapter_text doc chapter) as [text | e]; [| discriminate].
  destruct (split_text text) as [parts | e]; [| discriminate].
  injection Hl as <-. apply in_map_iff in Hchunk.
  destruct Hchunk as (part & <- & _). apply replace_NUL_clean.
Qed.

Lemma process_pdf_chunks_without_NUL_witness :
  page_get_text nul_doc 0 = Ok [97; 0; 98]%N
  /\ forall chunk,
       In chunk
         [ mkChunkDoc [97; 98]%N (lit "chunk") (lit "1") (lit "Full Document") ] ->
       ~ In 0%N (chunk_content chunk).
Proof.
  split; [reflexivity |].
  apply (process_pdf_chunks_without_NUL (open_as nul_doc) window_splitter
           upload_request initial_world
           (mkWorld
              [ Text no_toc_warning; Text indexing_notice;
                Text (lit "Successfully processed PDF. Found 1 chunks.") ]
              Closed [0])
           (layers_of nul_doc
              [ mkChunkDoc [97; 98]%N (lit "chunk") (lit "1")
                  (lit "Full Document") ])
           200).
  reflexivity.
Defined.



(** C9, at a one-page document whose text extraction raises.  The
    response is the single error "Failed to process PDF: cannot extract
    text" with status 500 and carries no layers, but the handle that
    [fitz.open] acquired is still open when [process_pdf] returns:
    [doc.close()] is on the success path only. *)
Theorem process_pdf_unreadable_page :
  process_pdf (open_as unreadable_doc) window_splitter upload_request
    initial_world
  = (Ok (JsonError (lit "Failed to process PDF: cannot extract text"), 500),
     mkWorld [Text no_toc_warning; Text indexing_notice] Opened [0]).
Proof. reflexivity. Qed.

(* ================================================================= *)
(** ** Further properties of [get_chapter_map] *)

Lemma compute_chapter_map_nonempty (outline : list TocItem) (total_pages : Z) :
  compute_chapter_map outline total_pages <> [].
Proof.
  unfold compute_chapter_map.
  destruct (qualifying outline) as [|[[level t] page] q]; discriminate.
Qed.

Lemma Forall2_Forall_left {A B} (R : A -> B -> Prop) (P : A -> Prop)
    (Q : B -> Prop) (l : list A) (l' : list B) :
  (forall x y, R x y -> Q y -> P x) ->
  Forall2 R l l' -> Forall Q l' -> Forall P l.
Proof.
  intros HP H. induction H as [|x y l l' Hxy Hrest IH]; intros HQ.
  - constructor.
  - inversion HQ; subst. constructor; [now apply (HP x y) | now apply IH].
Qed.

(** X1. Given the outline that [doc.get_toc()] returned, the two index
    loops of [get_chapter_map] (lines 42-79) raise no [IndexError]: every
    index collected by the first loop points to an entry of the outline
    that passes the test of line 45, and the second loop, whose lookups
    [toc[toc_index]], [valid_chapter_indices[i+1]] and
    [toc[next_toc_index]] may each raise, returns one chapter per collected
    index.  Whenever [get_chapter_map] returns, its list is not empty. *)
Theorem get_chapter_map_indices_in_range (doc : Document)
    (toc : list TocItem) (w : World) :
  let valid_chapter_indices := collect_valid_indices 0 toc [] in
  Forall (fun toc_index =>
            exists entry,
              nth_error toc toc_index = Some entry
              /\ is_valid_chapter entry = true)
    valid_chapter_indices
  /\ (exists chapter_map,
        build_chapter_map doc toc valid_chapter_indices 0
          valid_chapter_indices [] 1 w
        = (Ok chapter_map, w)
        /\ List.length chapter_map = List.length valid_chapter_indices)
  /\ (forall chapter_map w',
        get_chapter_map doc w = (Ok chapter_map, w') -> chapter_map <> []).
Proof.
  intros valid_chapter_indices.
  destruct (collect_valid_indices_lookup toc [] []) as [idx [Hrun Hidx]].
  change (collect_valid_indices (List.length (@nil TocItem)) toc [])
    with valid_chapter_indices in Hrun.
  cbn [app] in Hrun, Hidx. rewrite Hrun.
  split; [| split].
  - apply (Forall2_Forall_left
             (fun j e => nth_error toc j = Some e) _
             (fun e => is_valid_chapter e = true) idx (qualifying toc)).
    + intros j e Hj He. now exists e.
    + exact Hidx.
    + apply Forall_forall. intros e He. now apply filter_In in He.
  - exists (chapters_from 1 (qualifying toc) (page_count doc)). split.
    + exact (build_chapter_map_run doc toc idx idx (qualifying toc) [] [] 1 w
               eq_refl Hidx).
    + rewrite chapters_from_length. symmetry. exact (Forall2_length Hidx).
  - intros chapter_map w' Hget. rewrite get_chapter_map_refines in Hget.
    injection Hget as <- _. apply compute_chapter_map_nonempty.
Qed.

Lemma get_chapter_map_indices_in_range_witness :
  Forall (fun toc_index =>
            exists entry,
              nth_error scenario_outline toc_index = Some entry
              /\ is_valid_chapter entry = true)
    [1%nat; 2%nat]
  /\ (exists chapter_map,
        build_chapter_map scenario_doc scenario_outline [1%nat; 2%nat] 0
          [1%nat; 2%nat] [] 1 initial_world
        = (Ok chapter_map, initial_world)
        /\ List.length chapter_map = 2%nat)
  /\ (forall chapter_map w',
        get_chapter_map scenario_doc initial_world = (Ok chapter_map, w') ->
        chapter_map <> []).
Proof.
  exact (get_chapter_map_indices_in_range scenario_doc scenario_outline
           initial_world).
Defined.

Lemma chapters_from_number_from (entries : list TocItem) :
  forall (number total_pages : Z) (c : Chapter),
    In c (chapters_from number entries total_pages) ->
    exists k, number <= k /\ chapter_number c = str_int k.
Proof.
  induction entries as [|[[level t] page] rest IH];
    intros number total_pages c Hin; [contradiction |].
  destruct Hin as [<- | Hin].
  - exists number. split; [lia | reflexivity].
  - destruct (IH _ _ _ Hin) as (k & Hk & Hnum). exists k. split; [lia | exact Hnum].
Qed.

Lemma chapters_from_numbers_NoDup (entries : list TocItem) :
  forall (number total_pages : Z),
    NoDup (map chapter_number (chapters_from number entries total_pages)).
Proof.
  induction entries as [|[[level t] page] rest IH]; intros number total_pages.
  - constructor.
  - cbn [chapters_from map]. constructor; [| apply IH].
    cbn [chapter_number]. intros Hin. apply in_map_iff in Hin.
    destruct Hin as (c & Hnum & Hc).
    destruct (chapters_from_number_from _ _ _ _ Hc) as (k & Hk & Hck).
    rewrite Hck in Hnum. apply str_int_injective in Hnum. lia.
Qed.

(** X2. The chapter numbers of a chapter map are pairwise distinct: a
    number identifies one chapter. *)
Theorem get_chapter_map_numbers_distinct (doc : Document) (w : World)
    (chapter_map : list Chapter) :
  fst (get_chapter_map doc w) = Ok chapter_map ->
  NoDup (map chapter_number chapter_map).
Proof.
  rewrite get_chapter_map_value. intros H. injection H as <-.
  unfold compute_chapter_map.
  destruct (qualifying (get_toc doc)) as [|e q].
  - repeat constructor. intros [].
  - apply chapters_from_numbers_NoDup.
Qed.

Lemma get_chapter_map_numbers_distinct_witness :
  NoDup [lit "1"; lit "2"].
Proof.
  exact (get_chapter_map_numbers_distinct scenario_doc initial_world
           [ mkChapter (lit "1") (lit "Chapter 1: Intro") 3 9;
             mkChapter (lit "2") (lit "Chapter 2: Depths") 10 15 ]
           eq_refl).
Defined.

Lemma qualifying_idempotent (outline : list TocItem) :
  qualifying (qualifying outline) = qualifying outline.
Proof.
  unfold qualifying. induction outline as [|e rest IH]; [reflexivity |].
  simpl. destruct (is_valid_chapter e) eqn:He; [| exact IH].
  simpl. now rewrite He, IH.
Qed.

(** X3. Bookmarks that do not qualify have no influence on the chapter
    map: a document whose outline is the outline of [doc] without them,
    and with the same page count, gets the same chapter map. *)
Theorem get_chapter_map_ignores_junk (doc cleaned : Document) (w w' : World) :
  get_toc cleaned = qualifying (get_toc doc) ->
  page_count cleaned = page_count doc ->
  fst (get_chapter_map cleaned w') = fst (get_chapter_map doc w).
Proof.
  intros Htoc Hpages.
  rewrite !get_chapter_map_value, Htoc, Hpages.
  unfold compute_chapter_map. now rewrite qualifying_idempotent.
Qed.

Lemma get_chapter_map_ignores_junk_witness :
  get_toc chapters_only_doc <> get_toc scenario_doc
  /\ fst (get_chapter_map chapters_only_doc initial_world)
     = fst (get_chapter_map scenario_doc initial_world).
Proof.
  split; [discriminate |].
  apply get_chapter_map_ignores_junk; reflexivity.
Defined.

(* ----------------------------------------------------------------- *)
(** *** Whitespace around titles *)

Lemma lstrip_suffix (s : pystr) : exists pre, s = pre ++ lstrip s.
Proof.
  induction s as [|c s [pre IH]]; [now exists [] |].
  simpl. destruct (isspace c).
  - exists (c :: pre). simpl. now rewrite <- IH.
  - now exists [].
Qed.

Lemma lstrip_head (s : pystr) :
  match lstrip s with
  | [] => True
  | c :: _ => isspace c = false
  end.
Proof.
  induction s as [|c s IH]; [exact I |].
  simpl. destruct (isspace c) eqn:Hc; [exact IH | exact Hc].
Qed.

Lemma lstrip_fixed (s : pystr) :
  match s with
  | [] => True
  | c :: _ => isspace c = false
  end ->
  lstrip s = s.
Proof. destruct s as [|c s]; [reflexivity |]. simpl. now intros ->. Qed.

Lemma strip_trimmed (s : pystr) : trimmed (strip s).
Proof.
  unfold trimmed, strip, rstrip. split.
  - destruct (lstrip_suffix (rev (lstrip s))) as [pre Hpre].
    apply (f_equal (@rev char)) in Hpre.
    rewrite rev_involutive, rev_app_distr in Hpre.
    pose proof (lstrip_head s) as Hhead. rewrite Hpre in Hhead.
    destruct (rev (lstrip (rev (lstrip s)))); [exact I | exact Hhead].
  - rewrite rev_involutive. apply lstrip_head.
Qed.

Lemma trimmed_strip (s : pystr) : trimmed s -> strip s = s.
Proof.
  intros [Hhead Hlast]. unfold strip, rstrip.
  rewrite (lstrip_fixed s Hhead), (lstrip_fixed (rev s) Hlast).
  apply rev_involutive.
Qed.

Lemma strip_idempotent (s : pystr) : strip (strip s) = strip s.
Proof. apply trimmed_strip, strip_trimmed. Qed.

Lemma chapters_from_titles (entries : list TocItem) :
  forall (number total_pages : Z) (c : Chapter),
    In c (chapters_from number entries total_pages) ->
    exists level t page, In (level, t, page) entries /\ title c = strip t.
Proof.
  induction entries as [|[[level t] page] rest IH];
    intros number total_pages c Hin; [contradiction |].
  destruct Hin as [<- | Hin].
  - exists level, t, page. split; [now left | reflexivity].
  - destruct (IH _ _ _ Hin) as (l & t' & p & Hin' & Ht).
    exists l, t', p. split; [now right | exact Ht].
Qed.

(** X4. Every title of the chapter map is trimmed: it neither starts nor
    ends with whitespace.  Unless the map is the single "Full Document"
    chapter, every title starts with "Chapter" or "Appendix". *)
Theorem get_chapter_map_titles (doc : Document) (w : World)
    (chapter_map : list Chapter) :
  fst (get_chapter_map doc w) = Ok chapter_map ->
  Forall (fun c => trimmed (title c)) chapter_map
  /\ (chapter_map = [full_document doc]
      \/ Forall (fun c =>
                   startswith (title c) (lit "Chapter")
                   || startswith (title c) (lit "Appendix") = true)
           chapter_map).
Proof.
  rewrite get_chapter_map_value. intros H. injection H as <-.
  unfold compute_chapter_map.
  destruct (qualifying (get_toc doc)) as [|e q] eqn:Hq.
  - split; [| now left].
    repeat constructor; reflexivity.
  - split; [| right]; apply Forall_forall; intros c Hc;
      destruct (chapters_from_titles _ _ _ _ Hc) as (level & t & page & Hin & ->).
    + apply strip_trimmed.
    + rewrite <- Hq in Hin. apply filter_In in Hin. destruct Hin as [_ Hvalid].
      unfold is_valid_chapter in Hvalid.
      apply andb_true_iff in Hvalid. apply Hvalid.
Qed.

Lemma get_chapter_map_titles_witness :
  Forall (fun c => trimmed (title c))
    [ mkChapter (lit "1") (lit "Chapter 1: Intro") 3 9;
      mkChapter (lit "2") (lit "Chapter 2: Depths") 10 15 ].
Proof.
  exact (proj1 (get_chapter_map_titles padded_doc initial_world
                  [ mkChapter (lit "1") (lit "Chapter 1: Intro") 3 9;
                    mkChapter (lit "2") (lit "Chapter 2: Depths") 10 15 ]
                  eq_refl)).
Defined.

Lemma is_valid_chapter_whitespace (entry entry' : TocItem) :
  same_up_to_whitespace entry entry' ->
  is_valid_chapter entry = is_valid_chapter entry'.
Proof.
  destruct entry as [[level t] page], entry' as [[level' t'] page'].
  intros (-> & Ht & _). unfold is_valid_chapter. now rewrite Ht.
Qed.

Lemma qualifying_whitespace (outline outline' : list TocItem) :
  Forall2 same_up_to_whitespace outline outline' ->
  Forall2 same_up_to_whitespace (qualifying outline) (qualifying outline').
Proof.
  unfold qualifying. induction 1 as [|e e' l l' He Hl IH]; [constructor |].
  simpl. rewrite <- (is_valid_chapter_whitespace e e' He).
  destruct (is_valid_chapter e); [now constructor | exact IH].
Qed.

Lemma chapters_from_whitespace (entries entries' : list TocItem) :
  Forall2 same_up_to_whitespace entries entries' ->
  forall number total_pages,
    chapters_from number entries total_pages
    = chapters_from number entries' total_pages.
Proof.
  induction 1 as [|[[level t] page] [[level' t'] page'] l l' He Hl IH];
    intros number total_pages; [reflexivity |].
  destruct He as (_ & Ht & <-). cbn [chapters_from].
  rewrite Ht, IH. do 2 f_equal.
  destruct Hl as [|[[l1 t1] p1] [[l1' t1'] p1'] ? ? (_ & _ & <-) _]; reflexivity.
Qed.

(** X5. Whitespace around the bookmark titles has no influence on the
    chapter map: two outlines whose entries agree on level, page and
    trimmed title give the same chapters. *)
Theorem get_chapter_map_whitespace (doc doc' : Document) (w w' : World) :
  Forall2 same_up_to_whitespace (get_toc doc) (get_toc doc') ->
  page_count doc = page_count doc' ->
  fst (get_chapter_map doc w) = fst (get_chapter_map doc' w').
Proof.
  intros Htoc Hpages. rewrite !get_chapter_map_value, Hpages.
  unfold compute_chapter_map.
  pose proof (qualifying_whitespace _ _ Htoc) as Hq.
  destruct Hq as [|e e' q q' He Hq]; [reflexivity |].
  f_equal. apply chapters_from_whitespace. now constructor.
Qed.

Lemma get_chapter_map_whitespace_witness :
  get_toc padded_doc <> get_toc scenario_doc
  /\ fst (get_chapter_map padded_doc initial_world)
     = fst (get_chapter_map scenario_doc initial_world).
Proof.
  split; [discriminate |].
  apply get_chapter_map_whitespace; [| reflexivity].
  repeat constructor.
Defined.

(* ================================================================= *)
(** ** Further properties of the segmenter *)

Lemma replace_NUL_without_NUL (s : pystr) : replace NUL [] s = without_NUL s.
Proof.
  unfold replace, NUL, without_NUL. induction s as [|c s IH]; [reflexivity |].
  simpl. destruct (N.eqb_spec c 0) as [-> | Hc]; simpl; now rewrite IH.
Qed.

Lemma map_seq_from {A} (f : nat -> A) (len : nat) :
  forall start,
    map f (seq start len) = map (fun i => f (start + i)%nat) (seq 0 len).
Proof.
  induction len as [|len IH]; intros start; [reflexivity |].
  simpl. rewrite Nat.add_0_r. f_equal.
  rewrite (IH (S start)), <- seq_shift, map_map.
  apply map_ext. intros i. f_equal. lia.
Qed.

Lemma range_app (a b c : Z) :
  a <= b -> b <= c -> range a b ++ range b c = range a c.
Proof.
  intros Hab Hbc. unfold range.
  replace (Z.to_nat (c - a)) with (Z.to_nat (b - a) + Z.to_nat (c - b))%nat
    by lia.
  rewrite seq_app, map_app. f_equal.
  rewrite (map_seq_from _ _ (0 + Z.to_nat (b - a))%nat).
  apply map_ext. intros i. lia.
Qed.

(** The text read from pages that all extract: their texts, joined in
    page order. *)
Lemma read_pages_text (doc : Document) (pages : list Z) :
  forall (texts : list pystr) (acc : pystr) (w : World),
    Forall2 (fun p t => page_get_text doc p = Ok t) pages texts ->
    read_pages doc pages acc w = (Ok (acc ++ List.concat texts), with_loads w pages).
Proof.
  induction pages as [|p pages IH]; intros texts acc w Htexts.
  - inversion Htexts; subst. simpl. now rewrite app_nil_r, with_loads_nil.
  - inversion Htexts as [|? t ? texts' Hp Hrest]; subst.
    cbn [read_pages]. unfold bind, get_text. rewrite Hp.
    fold (with_loads w [p]).
    rewrite (IH texts' (acc ++ t) (with_loads w [p]) Hrest).
    now rewrite with_loads_app, <- app_assoc.
Qed.

(** The first page that fails ends the reading. *)
Lemma read_pages_failure (doc : Document) (before : list Z) :
  forall (p : Z) (after : list Z) (e : exn) (acc : pystr) (w : World),
    Forall (fun q => exists t, page_get_text doc q = Ok t) before ->
    page_get_text doc p = Raise e ->
    read_pages doc (before ++ p :: after) acc w
    = (Raise e, with_loads w (before ++ [p])).
Proof.
  induction before as [|q before IH]; intros p after e acc w Hbefore Hp.
  - simpl. unfold bind, get_text. now rewrite Hp.
  - inversion Hbefore as [|? ? [t Hq] Hrest]; subst.
    cbn [app read_pages]. unfold bind, get_text. rewrite Hq.
    fold (with_loads w [q]).
    rewrite (IH p after e (acc ++ t) (with_loads w [q]) Hrest Hp).
    now rewrite with_loads_app.
Qed.

(** X6. When every page of the clamped range of a chapter extracts, the
    text of the chapter is the concatenation of the page texts in page
    order, and exactly the pages of the range were loaded, in order. *)
Theorem extract_chapter_text_concat (doc : Document) (chapter : Chapter)
    (texts : list pystr) (w : World) :
  Forall2 (fun p t => page_get_text doc p = Ok t)
    (chapter_pages doc chapter) texts ->
  extract_chapter_text doc chapter w
  = (Ok (List.concat texts), with_loads w (chapter_pages doc chapter)).
Proof.
  intros Htexts. unfold extract_chapter_text. fold (chapter_pages doc chapter).
  now rewrite (read_pages_text doc _ texts [] w Htexts).
Qed.

Lemma extract_chapter_text_concat_witness :
  extract_chapter_text half_blank_doc
    (mkChapter (lit "2") (lit "Chapter 2") 3 4) initial_world
  = (Ok (lit "texttext"), mkWorld [] NotOpened [2; 3]).
Proof.
  apply (extract_chapter_text_concat half_blank_doc
           (mkChapter (lit "2") (lit "Chapter 2") 3 4)
           [lit "text"; lit "text"] initial_world).
  repeat constructor.
Defined.

(** X7. When a page of the clamped range fails to extract and the pages
    before it extract, the extraction of the chapter raises the exception
    of that page, and no page after it is loaded. *)
Theorem extract_chapter_text_failure (doc : Document) (chapter : Chapter)
    (before after : list Z) (p : Z) (e : exn) (w : World) :
  chapter_pages doc chapter = before ++ p :: after ->
  Forall (fun q => exists t, page_get_text doc q = Ok t) before ->
  page_get_text doc p = Raise e ->
  extract_chapter_text doc chapter w
  = (Raise e, with_loads w (before ++ [p])).
Proof.
  intros Hpages Hbefore Hp. unfold extract_chapter_text.
  fold (chapter_pages doc chapter). rewrite Hpages.
  now apply read_pages_failure.
Qed.

Lemma extract_chapter_text_failure_witness :
  extract_chapter_text
    (mkDocument [] 3
       (fun i => if i =? 1 then Raise (Exception (lit "bad page")) else Ok (lit "a")))
    (mkChapter (lit "1") (lit "Full Document") 1 3) initial_world
  = (Raise (Exception (lit "bad page")), mkWorld [] NotOpened [0; 1]).
Proof.
  apply (extract_chapter_text_failure
           (mkDocument [] 3
              (fun i => if i =? 1 then Raise (Exception (lit "bad page"))
                        else Ok (lit "a")))
           (mkChapter (lit "1") (lit "Full Document") 1 3)
           [0] [2] 1 (Exception (lit "bad page")) initial_world).
  - reflexivity.
  - repeat constructor. now exists (lit "a").
  - reflexivity.
Defined.

Section SegmenterRuns.

Variable fitz_open : list Byte.byte -> result Document.
Variable split_text : pystr -> result (list pystr).

Lemma chapter_chunks_text (doc : Document) (chapter : Chapter)
    (chunks : list ChunkDoc) :
  chapter_chunks split_text doc chapter = Ok chunks ->
  exists text parts,
    chapter_text doc chapter = Ok text
    /\ split_text text = Ok parts
    /\ chunks = map (make_chunk chapter) parts.
Proof.
  unfold chapter_chunks. intros H.
  destruct (chapter_text doc chapter) as [text | e]; [| discriminate].
  destruct (split_text text) as [parts | e] eqn:Hparts; [| discriminate].
  injection H as <-. now exists text, parts.
Qed.

(** The pages that the chapter loop loads: inside the document, and, when
    the loop succeeds, the clamped ranges of the chapters one after the
    other. *)
Lemma process_chapters_world (doc : Document) (chapter_map : list Chapter) :
  forall (acc : list ChunkDoc) (w : World),
  exists loads,
    snd (process_chapters split_text doc chapter_map acc w) = with_loads w loads
    /\ Forall (fun i => 0 <= i <= page_count doc - 1) loads
    /\ (forall out,
          fst (process_chapters split_text doc chapter_map acc w) = Ok out ->
          loads = List.concat (map (chapter_pages doc) chapter_map)).
Proof.
  induction chapter_map as [|chapter rest IH]; intros acc w.
  - exists []. simpl. rewrite with_loads_nil. now repeat split.
  - cbn [process_chapters]. unfold bind. rewrite process_chapter_run.
    destruct (read_pages_run doc (chapter_pages doc chapter) [] w)
      as (loads1 & rest1 & Hpages & Hw & Hrest).
    change (read_pages doc (chapter_pages doc chapter) [] w)
      with (extract_chapter_text doc chapter w) in Hw, Hrest.
    rewrite extract_chapter_text_value in Hrest.
    assert (Hbounds : Forall (fun i => 0 <= i <= page_count doc - 1) loads1).
    { apply Forall_forall. intros i Hi.
      assert (Hin : In i (chapter_pages doc chapter))
        by (rewrite Hpages; apply in_or_app; now left).
      apply range_In in Hin. lia. }
    rewrite Hw.
    destruct (chapter_chunks split_text doc chapter) as [chunks | e] eqn:Hc.
    + destruct (IH (acc ++ chunks) (with_loads w loads1))
        as (loads2 & Hw2 & Hbounds2 & Hall).
      exists (loads1 ++ loads2). rewrite Hw2, with_loads_app.
      split; [reflexivity |]. split; [now apply Forall_app |].
      intros out Hout. rewrite (Hall out Hout).
      destruct (chapter_chunks_text _ _ _ Hc) as (text & parts & Htext & _).
      rewrite (Hrest text Htext), app_nil_r in Hpages.
      simpl. now rewrite Hpages.
    + exists loads1. simpl. repeat split; trivial. discriminate.
Qed.

(** The whole effect of a successful body of the [try]. *)
Lemma process_body_success (file : FileStorage) (doc : Document) (w : World)
    (chunks : list ChunkDoc) :
  fitz_open (read file) = Ok doc ->
  all_chunks split_text doc
    (compute_chapter_map (get_toc doc) (page_count doc)) [] = Ok chunks ->
  process_body fitz_open split_text file w
  = (Ok (JsonLayers (layers_of doc chunks), 200),
     mkWorld
       (stdout w ++ chapter_map_prints (get_toc doc) (page_count doc)
        ++ [success_line chunks])
       Closed
       (page_loads w
        ++ List.concat
             (map (chapter_pages doc)
                (compute_chapter_map (get_toc doc) (page_count doc))))).
Proof.
  intros Hopen Hchunks. unfold process_body, open_document. unfold bind at 1.
  rewrite Hopen. unfold bind at 1. rewrite get_chapter_map_refines.
  set (chapter_map := compute_chapter_map (get_toc doc) (page_count doc)) in *.
  set (w1 := with_output _ _).
  unfold bind at 1.
  pose proof (process_chapters_value split_text doc chapter_map [] w1) as Hvalue.
  destruct (process_chapters_world doc chapter_map [] w1)
    as (loads & Hw & _ & Hloads).
  destruct (process_chapters split_text doc chapter_map [] w1) as [r w2].
  simpl in Hvalue, Hw, Hloads. rewrite Hchunks in Hvalue. subst r w2.
  rewrite (Hloads chunks eq_refl).
  unfold bind, close, print, ret, success_line, layers_of. cbn.
  fold chapter_map. rewrite entry_docs_map, <- app_assoc. reflexivity.
Qed.

(** The whole effect of a body of the [try] in which a chapter fails. *)
Lemma process_body_failure (file : FileStorage) (doc : Document) (w : World)
    (e : exn) :
  fitz_open (read file) = Ok doc ->
  all_chunks split_text doc
    (compute_chapter_map (get_toc doc) (page_count doc)) [] = Raise e ->
  exists loads,
    process_body fitz_open split_text file w
    = (Raise e,
       mkWorld
         (stdout w ++ chapter_map_prints (get_toc doc) (page_count doc))
         Opened (page_loads w ++ loads))
    /\ Forall (fun i => 0 <= i <= page_count doc - 1) loads.
Proof.
  intros Hopen Hchunks. unfold process_body, open_document. unfold bind at 1.
  rewrite Hopen. unfold bind at 1. rewrite get_chapter_map_refines.
  set (chapter_map := compute_chapter_map (get_toc doc) (page_count doc)) in *.
  set (w1 := with_output _ _).
  unfold bind at 1.
  pose proof (process_chapters_value split_text doc chapter_map [] w1) as Hvalue.
  destruct (process_chapters_world doc chapter_map [] w1)
    as (loads & Hw & Hbounds & _).
  destruct (process_chapters split_text doc chapter_map [] w1) as [r w2].
  simpl in Hvalue, Hw. rewrite Hchunks in Hvalue. subst r w2.
  exists loads. split; [reflexivity | exact Hbounds].
Qed.

End SegmenterRuns.

Section ChunkRuns.

Variable split_text : pystr -> result (list pystr).

(** The chunks of a successful run, chapter by chapter. *)
Lemma all_chunks_groups (doc : Document) (chapter_map : list Chapter) :
  forall (acc out : list ChunkDoc),
    all_chunks split_text doc chapter_map acc = Ok out ->
    exists groups,
      Forall2 (fun c g => chapter_chunks split_text doc c = Ok g)
        chapter_map groups
      /\ out = acc ++ List.concat groups.
Proof.
  induction chapter_map as [|chapter rest IH]; intros acc out Hrun.
  - injection Hrun as <-. exists []. split; [constructor |].
    simpl. now rewrite app_nil_r.
  - cbn [all_chunks] in Hrun.
    destruct (chapter_chunks split_text doc chapter) as [chunks | e] eqn:Hc;
      [| discriminate].
    destruct (IH _ _ Hrun) as (groups & Hgroups & ->).
    exists (chunks :: groups). split; [now constructor |].
    simpl. now rewrite app_assoc.
Qed.

(** The first chapter that fails decides the exception of the run. *)
Lemma all_chunks_first_failure (doc : Document) (before : list Chapter) :
  forall (chapter : Chapter) (after : list Chapter) (e : exn)
         (acc : list ChunkDoc),
    Forall (fun c => exists chunks, chapter_chunks split_text doc c = Ok chunks)
      before ->
    chapter_chunks split_text doc chapter = Raise e ->
    all_chunks split_text doc (before ++ chapter :: after) acc = Raise e.
Proof.
  induction before as [|c before IH]; intros chapter after e acc Hbefore Hc.
  - simpl. now rewrite Hc.
  - inversion Hbefore as [|? ? [chunks Hchunks] Hrest]; subst.
    cbn [app all_chunks]. rewrite Hchunks. now apply IH.
Qed.

End ChunkRuns.

(* ----------------------------------------------------------------- *)
(** *** The responses of [process_pdf] *)

(** X8. For a request whose parsed [request.files] holds a file with a
    non-empty name under "file", no exception of [fitz.open], of
    [get_text] or of the splitter leaves [process_pdf]: the answer is
    either layers with status 200 or, for the exception [e] that was
    raised, the error "Failed to process PDF: " followed by [str(e)] with
    status 500. *)
Theorem process_pdf_catches
    (fitz_open : list Byte.byte -> result Document)
    (split_text : pystr -> result (list pystr))
    (request : Request) (file : FileStorage) (w : World) :
  files_get request (lit "file") = Some file ->
  filename file <> [] ->
  exists json status w',
    process_pdf fitz_open split_text request w = (Ok (json, status), w')
    /\ match json with
       | JsonLayers _ => status = 200
       | JsonError error =>
           status = 500
           /\ exists e,
                fst (process_body fitz_open split_text file w) = Raise e
                /\ error = lit "Failed to process PDF: " ++ str_exn e
       end.
Proof.
  intros Hfile Hname. rewrite (process_pdf_run _ _ _ _ _ Hfile Hname).
  destruct (fitz_open (read file)) as [doc | e] eqn:Hopen.
  - destruct (process_body_run fitz_open split_text file doc w Hopen)
      as (w' & -> & _).
    destruct (all_chunks split_text doc _ []) as [chunks | e];
      do 3 eexists; (split; [reflexivity |]); [reflexivity |].
    split; [reflexivity |]. exists e. now split.
  - rewrite (process_body_open_fails _ _ _ _ _ Hopen).
    do 3 eexists. split; [reflexivity |].
    split; [reflexivity |]. exists e. now split.
Qed.

Lemma process_pdf_catches_witness :
  exists json status w',
    process_pdf (open_as nul_doc) (fun _ => Raise (Exception (lit "splitter down")))
      upload_request initial_world
    = (Ok (json, status), w')
    /\ match json with
       | JsonLayers _ => status = 200
       | JsonError error =>
           status = 500
           /\ exists e,
                fst (process_body (open_as nul_doc)
                       (fun _ => Raise (Exception (lit "splitter down")))
                       (mkFileStorage (lit "book.pdf") []) initial_world)
                = Raise e
                /\ error = lit "Failed to process PDF: " ++ str_exn e
       end.
Proof.
  apply (process_pdf_catches (open_as nul_doc)
           (fun _ => Raise (Exception (lit "splitter down")))
           upload_request (mkFileStorage (lit "book.pdf") []) initial_world).
  - reflexivity.
  - discriminate.
Defined.

(** X9. A request without a [file] part is answered with "No file part",
    one whose file has an empty name with "No selected file"; both get
    status 400 and leave the world untouched (nothing is opened, loaded or
    printed).  No other request gets status 400. *)
Theorem process_pdf_bad_request
    (fitz_open : list Byte.byte -> result Document)
    (split_text : pystr -> result (list pystr))
    (request : Request) (w : World) :
  (files_get request (lit "file") = None ->
   process_pdf fitz_open split_text request w
   = (Ok (JsonError (lit "No file part"), 400), w))
  /\ (forall file,
        files_get request (lit "file") = Some file ->
        filename file = [] ->
        process_pdf fitz_open split_text request w
        = (Ok (JsonError (lit "No selected file"), 400), w))
  /\ (forall json w',
        process_pdf fitz_open split_text request w = (Ok (json, 400), w') ->
        files_get request (lit "file") = None
        \/ exists file,
             files_get request (lit "file") = Some file /\ filename file = []).
Proof.
  unfold process_pdf.
  destruct (files_get request (lit "file")) as [file |] eqn:Hfile.
  - split; [discriminate |].
    destruct (pystr_eqb_spec (filename file) []) as [Hname | Hname].
    + split; [reflexivity |]. intros _ _ _. right. now exists file.
    + split.
      * intros file' Hfile' Hname'. injection Hfile' as <-. contradiction.
      * intros json w' Hrun. exfalso. unfold try_except in Hrun.
        destruct (fitz_open (read file)) as [doc | e] eqn:Hopen.
        -- destruct (process_body_run fitz_open split_text file doc w Hopen)
             as (w1 & Hbody & _).
           rewrite Hbody in Hrun.
           destruct (all_chunks split_text doc _ []); discriminate.
        -- rewrite (process_body_open_fails _ _ _ _ _ Hopen) in Hrun.
           discriminate.
  - split; [reflexivity |]. split; [discriminate |]. intros _ _ _. now left.
Qed.

Lemma process_pdf_bad_request_witness :
  process_pdf (open_as nul_doc) window_splitter (mkRequest []) initial_world
  = (Ok (JsonError (lit "No file part"), 400), initial_world).
Proof.
  exact (proj1 (process_pdf_bad_request (open_as nul_doc) window_splitter
                  (mkRequest []) initial_world) eq_refl).
Defined.

(** X10. When the document does not open, the response is the error
    "Failed to process PDF: " followed by the text of the exception, with
    status 500; no handle was acquired, no page loaded and nothing
    printed. *)
Theorem process_pdf_open_fails
    (fitz_open : list Byte.byte -> result Document)
    (split_text : pystr -> result (list pystr))
    (request : Request) (file : FileStorage) (e : exn) (w : World) :
  files_get request (lit "file") = Some file ->
  filename file <> [] ->
  fitz_open (read file) = Raise e ->
  process_pdf fitz_open split_text request w
  = (Ok (JsonError (lit "Failed to process PDF: " ++ str_exn e), 500), w).
Proof.
  intros Hfile Hname Hopen.
  now rewrite (process_pdf_run _ _ _ _ _ Hfile Hname),
    (process_body_open_fails _ _ _ _ _ Hopen).
Qed.

Lemma process_pdf_open_fails_witness :
  process_pdf (fun _ => Raise (Exception (lit "no PDF header")))
    window_splitter upload_request initial_world
  = (Ok (JsonError (lit "Failed to process PDF: no PDF header"), 500),
     initial_world).
Proof.
  apply (process_pdf_open_fails (fun _ => Raise (Exception (lit "no PDF header")))
           window_splitter upload_request
           (mkFileStorage (lit "book.pdf") [])
           (Exception (lit "no PDF header")) initial_world).
  - reflexivity.
  - discriminate.
  - reflexivity.
Defined.

(** X11. Once the document was opened, a response with layers has status
    200 and is returned with the handle closed, and an error response has
    status 500 and is returned with the handle still open. *)
Theorem process_pdf_handle
    (fitz_open : list Byte.byte -> result Document)
    (split_text : pystr -> result (list pystr))
    (request : Request) (file : FileStorage) (doc : Document)
    (w w' : World) (response : Response) :
  files_get request (lit "file") = Some file ->
  filename file <> [] ->
  fitz_open (read file) = Ok doc ->
  process_pdf fitz_open split_text request w = (Ok response, w') ->
  match fst response with
  | JsonError _ => snd response = 500 /\ doc_handle w' = Opened
  | JsonLayers _ => snd response = 200 /\ doc_handle w' = Closed
  end.
Proof.
  intros Hfile Hname Hopen Hrun.
  rewrite (process_pdf_run _ _ _ _ _ Hfile Hname) in Hrun.
  destruct (process_body_run fitz_open split_text file doc w Hopen)
    as (w1 & Hbody & Hhandle).
  rewrite Hbody in Hrun.
  destruct (all_chunks split_text doc
              (compute_chapter_map (get_toc doc) (page_count doc)) []);
    injection Hrun as <- <-; now split.
Qed.

Lemma process_pdf_handle_witness :
  200 = 200
  /\ doc_handle
       (snd (process_pdf (open_as nul_doc) window_splitter upload_request
               initial_world))
     = Closed.
Proof.
  apply (process_pdf_handle (open_as nul_doc) window_splitter upload_request
           (mkFileStorage (lit "book.pdf") []) nul_doc initial_world
           (snd (process_pdf (open_as nul_doc) window_splitter upload_request
                   initial_world))
           (JsonLayers
              (layers_of nul_doc
                 [ mkChunkDoc [97; 98]%N (lit "chunk") (lit "1")
                     (lit "Full Document") ]),
            200)).
  - reflexivity.
  - discriminate.
  - reflexivity.
  - vm_compute. reflexivity.
Defined.

(** X12. Whatever the outline and the chapters are, every page that a
    request loads from the opened document has an index between 0 and the
    page count minus 1, whether the request succeeds or fails. *)
Theorem process_pdf_page_loads
    (fitz_open : list Byte.byte -> result Document)
    (split_text : pystr -> result (list pystr))
    (request : Request) (file : FileStorage) (doc : Document) (w : World) :
  files_get request (lit "file") = Some file ->
  filename file <> [] ->
  fitz_open (read file) = Ok doc ->
  exists loads,
    page_loads (snd (process_pdf fitz_open split_text request w))
    = page_loads w ++ loads
    /\ Forall (fun i => 0 <= i <= page_count doc - 1) loads.
Proof.
  intros Hfile Hname Hopen.
  rewrite (process_pdf_run _ _ _ _ _ Hfile Hname).
  destruct (all_chunks split_text doc
              (compute_chapter_map (get_toc doc) (page_count doc)) [])
    as [chunks | e] eqn:Hchunks.
  - rewrite (process_body_success fitz_open split_text file doc w chunks
               Hopen Hchunks).
    eexists. split; [reflexivity |].
    apply Forall_concat, Forall_map, Forall_forall. intros c _.
    apply Forall_forall. intros i Hi. apply range_In in Hi. lia.
  - destruct (process_body_failure fitz_open split_text file doc w e
                Hopen Hchunks) as (loads & -> & Hbounds).
    now exists loads.
Qed.

Lemma process_pdf_page_loads_witness :
  exists loads,
    page_loads
      (snd (process_pdf (open_as backwards_doc) window_splitter
              upload_request initial_world))
    = [] ++ loads
    /\ Forall (fun i => 0 <= i <= 15 - 1) loads.
Proof.
  apply (process_pdf_page_loads (open_as backwards_doc) window_splitter
           upload_request (mkFileStorage (lit "book.pdf") []) backwards_doc
           initial_world).
  - reflexivity.
  - discriminate.
  - reflexivity.
Defined.

(** X13. The effects of a request that returns layers: after the lines
    of [get_chapter_map], one line reports the number of returned chunks;
    the handle is closed; and the pages loaded are the clamped ranges of
    the chapters, one chapter after the other. *)
Theorem process_pdf_success_effects
    (fitz_open : list Byte.byte -> result Document)
    (split_text : pystr -> result (list pystr))
    (request : Request) (file : FileStorage) (doc : Document)
    (w w' : World) (layers : Layers) (status : Z) :
  files_get request (lit "file") = Some file ->
  fitz_open (read file) = Ok doc ->
  process_pdf fitz_open split_text request w
  = (Ok (JsonLayers layers, status), w') ->
  exists chapter_map out,
    get_chapter_map doc w = (Ok chapter_map, with_output w out)
    /\ w' = mkWorld
              (stdout w ++ out ++ [success_line (layer3_chunks layers)])
              Closed
              (page_loads w
               ++ List.concat (map (chapter_pages doc) chapter_map)).
Proof.
  intros Hfile Hopen Hrun.
  destruct (process_pdf_layers _ _ _ _ _ _ _ Hrun)
    as (file' & doc' & chunks & Hfile' & Hname & Hopen' & Hchunks & -> & _).
  rewrite Hfile in Hfile'. injection Hfile' as <-.
  rewrite Hopen in Hopen'. injection Hopen' as <-.
  rewrite (process_pdf_run _ _ _ _ _ Hfile Hname),
    (process_body_success fitz_open split_text file doc w chunks Hopen Hchunks)
    in Hrun.
  injection Hrun as _ <-.
  exists (compute_chapter_map (get_toc doc) (page_count doc)),
    (chapter_map_prints (get_toc doc) (page_count doc)).
  split; [apply get_chapter_map_refines | reflexivity].
Qed.

Lemma process_pdf_success_effects_witness :
  exists chapter_map out,
    get_chapter_map half_blank_doc initial_world
    = (Ok chapter_map, with_output initial_world out)
    /\ snd (process_pdf (open_as half_blank_doc) window_splitter
              upload_request initial_world)
       = mkWorld
           ([] ++ out
            ++ [Text (lit "Successfully processed PDF. Found 1 chunks.")])
           Closed
           ([] ++ List.concat (map (chapter_pages half_blank_doc) chapter_map)).
Proof.
  apply (process_pdf_success_effects (open_as half_blank_doc) window_splitter
           upload_request (mkFileStorage (lit "book.pdf") []) half_blank_doc
           initial_world
           (snd (process_pdf (open_as half_blank_doc) window_splitter
                   upload_request initial_world))
           (layers_of half_blank_doc
              [ mkChunkDoc (lit "texttext") (lit "chunk") (lit "2")
                  (lit "Chapter 2") ])
           200).
  - reflexivity.
  - reflexivity.
  - vm_compute. reflexivity.
Defined.

Lemma chapters_from_tile (doc : Document) (rest : list TocItem) :
  forall (number : Z) (level : Z) (t : pystr) (page : Z),
    Forall (fun entry => 1 <= entry_page entry <= page_count doc)
      ((level, t, page) :: rest) ->
    Sorted Z.lt (map entry_page ((level, t, page) :: rest)) ->
    List.concat
      (map (chapter_pages doc)
         (chapters_from number ((level, t, page) :: rest) (page_count doc)))
    = range (page - 1) (page_count doc).
Proof.
  induction rest as [|[[level' t'] page'] rest IH];
    intros number level t page Hin Hsorted.
  - inversion Hin as [|? ? Hpage _]; subst. simpl in Hpage.
    cbn. unfold chapter_pages. cbn [start_page end_page].
    rewrite app_nil_r. f_equal; lia.
  - inversion Hin as [|? ? Hpage Hrest]; subst. simpl in Hpage.
    inversion Hrest as [|? ? Hpage' _]; subst. simpl in Hpage'.
    simpl in Hsorted. inversion Hsorted as [|? ? Hsorted' Hhd]; subst.
    inversion Hhd as [|? ? Hlt]; subst.
    change (chapters_from number ((level, t, page) :: (level', t', page') :: rest)
              (page_count doc))
      with ({| chapter_number := str_int number;
               title := strip t;
               start_page := page;
               end_page := page' - 1 |}
            :: chapters_from (number + 1) ((level', t', page') :: rest)
                 (page_count doc)).
    cbn [map List.concat].
    rewrite (IH (number + 1) level' t' page' Hrest Hsorted').
    unfold chapter_pages at 1. cbn [start_page end_page].
    replace (Z.max 0 (page - 1)) with (page - 1) by lia.
    replace (Z.min (page_count doc) (page' - 1)) with (page' - 1) by lia.
    apply range_app; lia.
Qed.

(** X14. When the pages of the qualifying bookmarks lie between 1 and the
    page count and increase strictly, the page ranges of the chapters tile
    the document from the page of the first qualifying bookmark to the
    last page: every such page belongs to exactly one chapter, in order,
    and the pages before the first qualifying bookmark belong to none. *)
Theorem get_chapter_map_tiles (doc : Document) (w : World)
    (chapter_map : list Chapter) (level : Z) (t : pystr) (first_page : Z)
    (rest : list TocItem) :
  fst (get_chapter_map doc w) = Ok chapter_map ->
  qualifying (get_toc doc) = (level, t, first_page) :: rest ->
  Forall (fun entry => 1 <= entry_page entry <= page_count doc)
    (qualifying (get_toc doc)) ->
  Sorted Z.lt (map entry_page (qualifying (get_toc doc))) ->
  List.concat (map (chapter_pages doc) chapter_map)
  = range (first_page - 1) (page_count doc).
Proof.
  rewrite get_chapter_map_value. intros H Hq Hin Hsorted. injection H as <-.
  unfold compute_chapter_map. rewrite Hq in *.
  now apply chapters_from_tile.
Qed.

Lemma get_chapter_map_tiles_witness :
  List.concat
    (map (chapter_pages scenario_doc)
       [ mkChapter (lit "1") (lit "Chapter 1: Intro") 3 9;
         mkChapter (lit "2") (lit "Chapter 2: Depths") 10 15 ])
  = range (3 - 1) 15.
Proof.
  apply (get_chapter_map_tiles scenario_doc initial_world _ 1
           (lit "Chapter 1: Intro") 3 [(1, lit "Chapter 2: Depths", 10)]).
  - reflexivity.
  - reflexivity.
  - repeat constructor; simpl; lia.
  - repeat constructor.
Defined.

(** X15. For a document without a qualifying bookmark, a request that
    returns layers has loaded every page of the document once, in order;
    every chunk is tagged with chapter "1" and title "Full Document";
    there is one entry, and the full table of contents is the line
    "Chapter 1: Full Document (Page 1)". *)
Theorem process_pdf_whole_document
    (fitz_open : list Byte.byte -> result Document)
    (split_text : pystr -> result (list pystr))
    (request : Request) (file : FileStorage) (doc : Document)
    (w w' : World) (layers : Layers) (status : Z) :
  files_get request (lit "file") = Some file ->
  fitz_open (read file) = Ok doc ->
  qualifying (get_toc doc) = [] ->
  process_pdf fitz_open split_text request w
  = (Ok (JsonLayers layers, status), w') ->
  page_loads w' = page_loads w ++ range 0 (page_count doc)
  /\ Forall (fun chunk =>
               chunk_chapter chunk = lit "1"
               /\ chunk_chapter_title chunk = lit "Full Document")
       (layer3_chunks layers)
  /\ layer1_entry_docs layers = [toc_entry (full_document doc)]
  /\ toc_content (layer1_full_toc_doc layers)
     = lit "Chapter 1: Full Document (Page 1)".
Proof.
  intros Hfile Hopen Hq Hrun.
  destruct (process_pdf_layers _ _ _ _ _ _ _ Hrun)
    as (file' & doc' & chunks & Hfile' & Hname & Hopen' & Hchunks & -> & _).
  rewrite Hfile in Hfile'. injection Hfile' as <-.
  rewrite Hopen in Hopen'. injection Hopen' as <-.
  rewrite (process_pdf_run _ _ _ _ _ Hfile Hname),
    (process_body_success fitz_open split_text file doc w chunks Hopen Hchunks)
    in Hrun.
  injection Hrun as _ <-.
  unfold layers_of. unfold compute_chapter_map in *. rewrite Hq in *.
  cbn [page_loads layer3_chunks layer1_entry_docs layer1_full_toc_doc
       toc_content map List.concat].
  split; [| split; [| split]].
  - f_equal. unfold chapter_pages, fallback_chapter.
    cbn [start_page end_page]. rewrite app_nil_r. f_equal; lia.
  - apply Forall_forall. intros chunk Hin.
    destruct (all_chunks_In _ _ _ _ _ Hchunks chunk Hin)
      as [[] | (c & l & [<- | []] & Hl & Hcl)].
    destruct (chapter_chunks_text _ _ _ _ Hl) as (text & parts & _ & _ & ->).
    apply in_map_iff in Hcl. destruct Hcl as (part & <- & _). now split.
  - reflexivity.
  - reflexivity.
Qed.

Lemma process_pdf_whole_document_witness :
  page_loads
    (snd (process_pdf (open_as nul_doc) window_splitter upload_request
            initial_world))
  = [] ++ range 0 1
  /\ Forall (fun chunk =>
               chunk_chapter chunk = lit "1"
               /\ chunk_chapter_title chunk = lit "Full Document")
       [ mkChunkDoc [97; 98]%N (lit "chunk") (lit "1") (lit "Full Document") ]
  /\ map toc_entry [fallback_chapter 1] = [toc_entry (full_document nul_doc)]
  /\ toc_text [fallback_chapter 1] = lit "Chapter 1: Full Document (Page 1)".
Proof.
  apply (process_pdf_whole_document (open_as nul_doc) window_splitter
           upload_request (mkFileStorage (lit "book.pdf") []) nul_doc
           initial_world
           (snd (process_pdf (open_as nul_doc) window_splitter upload_request
                   initial_world))
           (layers_of nul_doc
              [ mkChunkDoc [97; 98]%N (lit "chunk") (lit "1")
                  (lit "Full Document") ])
           200).
  - reflexivity.
  - reflexivity.
  - reflexivity.
  - vm_compute. reflexivity.
Defined.

Lemma chapter_chunks_groups
    (split_text : pystr -> result (list pystr)) (doc : Document)
    (chapter_map : list Chapter) (groups : list (list ChunkDoc)) :
  Forall2 (fun c g => chapter_chunks split_text doc c = Ok g)
    chapter_map groups ->
  exists parts_of,
    Forall2 (chapter_succeeds split_text doc) chapter_map parts_of
    /\ List.concat groups
       = List.concat
           (map (fun cp => tagged_chunks (fst cp) (snd cp))
              (combine chapter_map parts_of)).
Proof.
  induction 1 as [|c g chapter_map groups Hc Hrest (parts_of & Hparts & Heq)].
  - exists []. split; [constructor | reflexivity].
  - destruct (chapter_chunks_text _ _ _ _ Hc) as (text & parts & Htext & Hsplit & ->).
    exists (parts :: parts_of). split.
    + constructor; [now exists text | exact Hparts].
    + cbn [combine map List.concat fst snd]. rewrite Heq. f_equal.
      unfold tagged_chunks. apply map_ext. intros part.
      unfold make_chunk. now rewrite replace_NUL_without_NUL.
Qed.

(** X16. The chunk layer of a request that returns layers: every chapter
    was extracted and split without an exception, and [layer3_chunks] is,
    chapter after chapter in the order of the chapter map, the chunks
    that the splitter returned for the text of the chapter, in the
    splitter's order, each without its NUL characters and otherwise
    unchanged, tagged "chunk" with the number and the title of the
    chapter. *)
Theorem process_pdf_chunk_layer
    (fitz_open : list Byte.byte -> result Document)
    (split_text : pystr -> result (list pystr))
    (request : Request) (file : FileStorage) (doc : Document)
    (w w' : World) (layers : Layers) (status : Z)
    (chapter_map : list Chapter) :
  files_get request (lit "file") = Some file ->
  fitz_open (read file) = Ok doc ->
  fst (get_chapter_map doc w) = Ok chapter_map ->
  process_pdf fitz_open split_text request w
  = (Ok (JsonLayers layers, status), w') ->
  exists parts_of,
    Forall2 (chapter_succeeds split_text doc) chapter_map parts_of
    /\ layer3_chunks layers
       = List.concat
           (map (fun cp => tagged_chunks (fst cp) (snd cp))
              (combine chapter_map parts_of)).
Proof.
  intros Hfile Hopen Hmap Hrun.
  rewrite get_chapter_map_value in Hmap. injection Hmap as <-.
  destruct (process_pdf_layers _ _ _ _ _ _ _ Hrun)
    as (file' & doc' & chunks & Hfile' & _ & Hopen' & Hchunks & -> & _).
  rewrite Hfile in Hfile'. injection Hfile' as <-.
  rewrite Hopen in Hopen'. injection Hopen' as <-.
  destruct (all_chunks_groups _ _ _ _ _ Hchunks) as (groups & Hgroups & ->).
  destruct (chapter_chunks_groups _ _ _ _ Hgroups) as (parts_of & Hparts & Heq).
  exists parts_of. split; [exact Hparts | exact Heq].
Qed.

Lemma process_pdf_chunk_layer_witness :
  exists parts_of,
    Forall2 (chapter_succeeds window_splitter half_blank_doc)
      [ mkChapter (lit "1") (lit "Chapter 1") 1 2;
        mkChapter (lit "2") (lit "Chapter 2") 3 4 ]
      parts_of
    /\ [ mkChunkDoc (lit "texttext") (lit "chunk") (lit "2") (lit "Chapter 2") ]
       = List.concat
           (map (fun cp => tagged_chunks (fst cp) (snd cp))
              (combine
                 [ mkChapter (lit "1") (lit "Chapter 1") 1 2;
                   mkChapter (lit "2") (lit "Chapter 2") 3 4 ]
                 parts_of)).
Proof.
  apply (process_pdf_chunk_layer (open_as half_blank_doc) window_splitter
           upload_request (mkFileStorage (lit "book.pdf") []) half_blank_doc
           initial_world
           (snd (process_pdf (open_as half_blank_doc) window_splitter
                   upload_request initial_world))
           (layers_of half_blank_doc
              [ mkChunkDoc (lit "texttext") (lit "chunk") (lit "2")
                  (lit "Chapter 2") ])
           200).
  - reflexivity.
  - reflexivity.
  - reflexivity.
  - vm_compute. reflexivity.
Defined.

(** X17. The two table-of-contents layers of a request that returns
    layers.  The full table of contents is tagged "toc_full" and is, joined
    with line feeds, one line
    "Chapter <number>: <title> (Page <start_page>)" per chapter.
    [layer1_entry_docs] has, in the order of the chapter map, one entry
    per chapter, with content
    "Chapter <number>: <title> (Starts on Page <start_page>)", type
    "toc_entry" and the number of the chapter as its tag; it is never
    empty. *)
Theorem process_pdf_toc_layers
    (fitz_open : list Byte.byte -> result Document)
    (split_text : pystr -> result (list pystr))
    (request : Request) (file : FileStorage) (doc : Document)
    (w w' : World) (layers : Layers) (status : Z)
    (chapter_map : list Chapter) :
  files_get request (lit "file") = Some file ->
  fitz_open (read file) = Ok doc ->
  fst (get_chapter_map doc w) = Ok chapter_map ->
  process_pdf fitz_open split_text request w
  = (Ok (JsonLayers layers, status), w') ->
  toc_content (layer1_full_toc_doc layers)
  = join [10%N]
      (map (fun c =>
              lit "Chapter " ++ chapter_number c ++ lit ": " ++ title c
              ++ lit " (Page " ++ str_int (start_page c) ++ lit ")")
         chapter_map)
  /\ toc_doc_type (layer1_full_toc_doc layers) = lit "toc_full"
  /\ layer1_entry_docs layers
     = map (fun c =>
              {| entry_content :=
                   lit "Chapter " ++ chapter_number c ++ lit ": " ++ title c
                   ++ lit " (Starts on Page " ++ str_int (start_page c)
                   ++ lit ")";
                 entry_doc_type := lit "toc_entry";
                 entry_chapter := chapter_number c |})
         chapter_map
  /\ layer1_entry_docs layers <> [].
Proof.
  intros Hfile Hopen Hmap Hrun.
  rewrite get_chapter_map_value in Hmap. injection Hmap as <-.
  destruct (process_pdf_layers _ _ _ _ _ _ _ Hrun)
    as (file' & doc' & chunks & Hfile' & _ & Hopen' & _ & -> & _).
  rewrite Hfile in Hfile'. injection Hfile' as <-.
  rewrite Hopen in Hopen'. injection Hopen' as <-.
  split; [reflexivity |]. split; [reflexivity |]. split; [reflexivity |].
  simpl. intros Hnil. apply map_eq_nil in Hnil.
  now apply compute_chapter_map_nonempty in Hnil.
Qed.

Lemma process_pdf_toc_layers_witness :
  toc_content
    (layer1_full_toc_doc
       (layers_of half_blank_doc
          [ mkChunkDoc (lit "texttext") (lit "chunk") (lit "2")
              (lit "Chapter 2") ]))
  = lit "Chapter 1: Chapter 1 (Page 1)" ++ [10%N]
    ++ lit "Chapter 2: Chapter 2 (Page 3)"
  /\ lit "toc_full" = lit "toc_full"
  /\ layer1_entry_docs
       (layers_of half_blank_doc
          [ mkChunkDoc (lit "texttext") (lit "chunk") (lit "2")
              (lit "Chapter 2") ])
     = [ mkEntryDoc (lit "Chapter 1: Chapter 1 (Starts on Page 1)")
           (lit "toc_entry") (lit "1");
         mkEntryDoc (lit "Chapter 2: Chapter 2 (Starts on Page 3)")
           (lit "toc_entry") (lit "2") ]
  /\ layer1_entry_docs
       (layers_of half_blank_doc
          [ mkChunkDoc (lit "texttext") (lit "chunk") (lit "2")
              (lit "Chapter 2") ])
     <> [].
Proof.
  exact (process_pdf_toc_layers (open_as half_blank_doc) window_splitter
           upload_request (mkFileStorage (lit "book.pdf") []) half_blank_doc
           initial_world
           (snd (process_pdf (open_as half_blank_doc) window_splitter
                   upload_request initial_world))
           (layers_of half_blank_doc
              [ mkChunkDoc (lit "texttext") (lit "chunk") (lit "2")
                  (lit "Chapter 2") ])
           200
           [ mkChapter (lit "1") (lit "Chapter 1") 1 2;
             mkChapter (lit "2") (lit "Chapter 2") 3 4 ]
           eq_refl eq_refl eq_refl
           ltac:(vm_compute; reflexivity)).
Defined.

(** X18. The response does not depend on what earlier requests printed,
    loaded or left open: from any two worlds, the same request gets the
    same response. *)
Theorem process_pdf_stateless
    (fitz_open : list Byte.byte -> result Document)
    (split_text : pystr -> result (list pystr))
    (request : Request) (w1 w2 : World) :
  fst (process_pdf fitz_open split_text request w1)
  = fst (process_pdf fitz_open split_text request w2).
Proof.
  unfold process_pdf.
  destruct (files_get request (lit "file")) as [file |]; [| reflexivity].
  destruct (pystr_eqb (filename file) []); [reflexivity |].
  unfold try_except.
  destruct (fitz_open (read file)) as [doc | e] eqn:Hopen.
  - destruct (process_body_run fitz_open split_text file doc w1 Hopen)
      as (w1' & -> & _).
    destruct (process_body_run fitz_open split_text file doc w2 Hopen)
      as (w2' & -> & _).
    destruct (all_chunks split_text doc _ []); reflexivity.
  - now rewrite !(process_body_open_fails _ _ _ _ _ Hopen).
Qed.

(** X19. When a chapter raises an exception, in the extraction of a page
    or in the splitter, and the chapters before it do not, the response is
    the error "Failed to process PDF: " followed by the text of that
    exception, with status 500: the chunks of the earlier chapters are not
    returned. *)
Theorem process_pdf_first_failure
    (fitz_open : list Byte.byte -> result Document)
    (split_text : pystr -> result (list pystr))
    (request : Request) (file : FileStorage) (doc : Document) (w : World)
    (before after : list Chapter) (chapter : Chapter) (e : exn) :
  files_get request (lit "file") = Some file ->
  filename file <> [] ->
  fitz_open (read file) = Ok doc ->
  fst (get_chapter_map doc w) = Ok (before ++ chapter :: after) ->
  Forall (fun c => exists parts, chapter_succeeds split_text doc c parts)
    before ->
  chapter_fails split_text doc chapter e ->
  fst (process_pdf fitz_open split_text request w)
  = Ok (JsonError (lit "Failed to process PDF: " ++ str_exn e), 500).
Proof.
  intros Hfile Hname Hopen Hmap Hbefore Hfails.
  rewrite get_chapter_map_value in Hmap. injection Hmap as Hmap.
  assert (Hchunks : all_chunks split_text doc
                      (compute_chapter_map (get_toc doc) (page_count doc)) []
                    = Raise e).
  { rewrite Hmap. apply all_chunks_first_failure.
    - apply Forall_forall. intros c Hc.
      rewrite Forall_forall in Hbefore.
      destruct (Hbefore c Hc) as (parts & text & Htext & Hsplit).
      unfold chapter_chunks. rewrite Htext, Hsplit. eauto.
    - unfold chapter_chunks.
      destruct Hfails as [-> | (text & -> & ->)]; reflexivity. }
  rewrite (process_pdf_run _ _ _ _ _ Hfile Hname).
  destruct (process_body_run fitz_open split_text file doc w Hopen)
    as (w' & -> & _).
  now rewrite Hchunks.
Qed.

Lemma process_pdf_first_failure_witness :
  fst (process_pdf (open_as broken_second_doc) window_splitter upload_request
         initial_world)
  = Ok (JsonError (lit "Failed to process PDF: bad page"), 500).
Proof.
  apply (process_pdf_first_failure (open_as broken_second_doc) window_splitter
           upload_request (mkFileStorage (lit "book.pdf") [])
           broken_second_doc initial_world
           [mkChapter (lit "1") (lit "Chapter 1") 1 1] []
           (mkChapter (lit "2") (lit "Chapter 2") 2 2)
           (Exception (lit "bad page"))).
  - reflexivity.
  - discriminate.
  - reflexivity.
  - reflexivity.
  - repeat constructor. exists [lit "a"], (lit "a"). split; reflexivity.
  - left. reflexivity.
Defined.

(* ----------------------------------------------------------------- *)
(** *** What [get_chapter_map] prints *)

(** X20. The output of [get_chapter_map] tells its three cases apart:
    without bookmarks it prints the "No bookmarks (ToC) found" warning and
    the indexing notice; with bookmarks none of which qualifies, the "No
    'Chapter' or 'Appendix' bookmarks found" warning and the notice; and
    otherwise only the chapter map that it returns.  The two warnings
    differ. *)
Theorem get_chapter_map_output (doc : Document) (w : World) :
  exists chapter_map out,
    get_chapter_map doc w = (Ok chapter_map, with_output w out)
    /\ (get_toc doc = [] ->
        out = [Text no_toc_warning; Text indexing_notice])
    /\ (get_toc doc <> [] -> qualifying (get_toc doc) = [] ->
        out = [Text no_chapter_warning; Text indexing_notice])
    /\ (qualifying (get_toc doc) <> [] ->
        out = [GeneratedChapterMap chapter_map])
    /\ no_toc_warning <> no_chapter_warning.
Proof.
  exists (compute_chapter_map (get_toc doc) (page_count doc)),
    (chapter_map_prints (get_toc doc) (page_count doc)).
  split; [apply get_chapter_map_refines |].
  unfold chapter_map_prints.
  destruct (get_toc doc) as [|entry rest] eqn:Htoc.
  - repeat split; try discriminate; try contradiction.
  - destruct (qualifying (entry :: rest)) as [|e q] eqn:Hq;
      repeat split; try discriminate; try contradiction; try reflexivity.
Qed.
